(** * OpenVideoAnnotator: the annotation workflow of [App.tsx] and
      [AnnotationPanel], embedded as pure state-passing functions.

    [App] is src/app/App.tsx; the source of [AnnotationPanel] follows
    that of [VideoPlayer] in src/app/components/VideoPlayer.tsx.

    A React component's [useState] cells are the fields of a record; an
    event handler is a function from the state before the event to the
    state after it.  Values read from the host environment ([Date.now()],
    [URL.createObjectURL], the file picked by the user) are arguments of
    the handler that reads them. *)

From Stdlib Require Import List Bool NArith ZArith Lia.
From Stdlib Require Import Ascii String DecimalString DecimalZ Floats.
From Equations Require Import Equations.
Import ListNotations.

Set Implicit Arguments.

(** ** JavaScript strings

    A JavaScript string is a sequence of 16-bit code units; [trim], the
    regular expression classes and [===] all work on code units, so that
    is the representation.  [js] reads an ASCII literal. *)

Module Js.

Definition codeunit := N.
Definition jsstring := list codeunit.

Definition js (s : string) : jsstring :=
  map N_of_ascii (list_ascii_of_string s).

Definition LF : codeunit := 10%N.

(** [a === b] on strings. *)
Fixpoint streq (a b : jsstring) : bool :=
  match a, b with
  | [], [] => true
  | x :: a', y :: b' => N.eqb x y && streq a' b'
  | _, _ => false
  end.

(** The truthiness of a string: every string but the empty one. *)
Definition truthy (s : jsstring) : bool :=
  match s with [] => false | _ :: _ => true end.

(** [x || ''] on strings. *)
Definition orEmpty (s : jsstring) : jsstring :=
  if truthy s then s else [].

(** WhiteSpace and LineTerminator of ECMAScript: what [trim] strips and
    what [\s] matches. *)
Definition isWhiteSpace (c : codeunit) : bool :=
  ((9 <=? c) && (c <=? 13) || (c =? 32) || (c =? 160) || (c =? 5760)
   || (8192 <=? c) && (c <=? 8202)
   || (c =? 8232) || (c =? 8233) || (c =? 8239) || (c =? 8287)
   || (c =? 12288) || (c =? 65279))%N.

Fixpoint dropWhile (f : codeunit -> bool) (s : jsstring) : jsstring :=
  match s with
  | [] => []
  | c :: t => if f c then dropWhile f t else s
  end.

Fixpoint takeWhile (f : codeunit -> bool) (s : jsstring) : jsstring :=
  match s with
  | [] => []
  | c :: t => if f c then c :: takeWhile f t else []
  end.

Definition trimStart (s : jsstring) : jsstring := dropWhile isWhiteSpace s.
Definition trimEnd (s : jsstring) : jsstring :=
  rev (dropWhile isWhiteSpace (rev s)).
Definition trim (s : jsstring) : jsstring := trimEnd (trimStart s).

(** [s.split(sep)] for a one-unit separator: never the empty array. *)
Fixpoint split (sep : codeunit) (s : jsstring) : list jsstring :=
  match s with
  | [] => [[]]
  | c :: t =>
      if N.eqb c sep then [] :: split sep t
      else match split sep t with
           | h :: r => (c :: h) :: r
           | [] => [[c]]
           end
  end.

(** [a.pop()]: the last element, [undefined] on the empty array. *)
Definition pop (a : list jsstring) : option jsstring :=
  match rev a with
  | [] => None
  | x :: _ => Some x
  end.

(** [n.toString()] for an integral number below 1e21 in magnitude, which
    covers every value of [Date.now()]: the decimal digits, with a
    leading minus sign for a negative one. *)
Definition toString (n : Z) : jsstring :=
  js (NilZero.string_of_int (Z.to_int n)).

(** [p] is a prefix of [s]: the rest of [s] after it. *)
Fixpoint stripPrefix (p s : jsstring) : option jsstring :=
  match p, s with
  | [], _ => Some s
  | a :: p', b :: s' => if N.eqb a b then stripPrefix p' s' else None
  | _ :: _, [] => None
  end.

End Js.
Import Js.

(** ** [extractYouTubeVideoId] (App.tsx)

    [url.match(pattern)] without the [g] flag gives the leftmost match;
    only capture group 1 is read, so a pattern is modelled by the
    function from the subject to that group. *)

Module YouTubeId.

(** The three alternatives of the non-capturing group of the first
    pattern, in the order the pattern tries them. *)
Definition markers : list jsstring :=
  [ js "youtube.com/watch?v="; js "youtu.be/"; js "youtube.com/embed/" ].

(** The class [[^&\s?]]. *)
Definition isIdChar (c : codeunit) : bool :=
  negb ((c =? 38)%N || isWhiteSpace c || (c =? 63)%N).

(** The class [[a-zA-Z0-9_-]]. *)
Definition isBareIdChar (c : codeunit) : bool :=
  ((97 <=? c) && (c <=? 122) || (65 <=? c) && (c <=? 90)
   || (48 <=? c) && (c <=? 57) || (c =? 95) || (c =? 45))%N.

(** One alternative at the start of [s]: the marker, then the greedy
    [([^&\s?]+)], which needs one unit at least. *)
Definition captureAfter (m s : jsstring) : option jsstring :=
  match stripPrefix m s with
  | Some r =>
      match takeWhile isIdChar r with
      | [] => None
      | cap => Some cap
      end
  | None => None
  end.

(** The first pattern anchored at the start of [s]: the alternatives in
    order, the next one tried when one fails. *)
Fixpoint urlPatternAt (ms : list jsstring) (s : jsstring) : option jsstring :=
  match ms with
  | [] => None
  | m :: ms' =>
      match captureAfter m s with
      | Some cap => Some cap
      | None => urlPatternAt ms' s
      end
  end.

(** The unanchored search: the leftmost position where it matches. *)
Fixpoint urlPattern (s : jsstring) : option jsstring :=
  match urlPatternAt markers s with
  | Some cap => Some cap
  | None =>
      match s with
      | [] => None
      | _ :: t => urlPattern t
      end
  end.

(** [/^([a-zA-Z0-9_-]{11})$/]. *)
Definition barePattern (s : jsstring) : option jsstring :=
  if Nat.eqb (List.length s) 11 && forallb isBareIdChar s then Some s else None.

Definition patterns : list (jsstring -> option jsstring) :=
  [ urlPattern; barePattern ].

(** The [for] loop: the first pattern with [match && match[1]]. *)
Fixpoint firstCapture (ps : list (jsstring -> option jsstring))
    (url : jsstring) : option jsstring :=
  match ps with
  | [] => None
  | p :: ps' =>
      match p url with
      | Some cap => if truthy cap then Some cap else firstCapture ps' url
      | None => firstCapture ps' url
      end
  end.

Definition extractYouTubeVideoId (url : jsstring) : option jsstring :=
  firstCapture patterns url.

End YouTubeId.
Import YouTubeId.

(** ** The data model (the [Annotation] interface of [AnnotationPanel])

    A [number] is an IEEE 754 double: a primitive float.  The handlers
    only copy the timestamps and durations they are given. *)

Inductive AnnotationType := VLM | LLM.

Module Annotation.
Record t := mk {
  id : jsstring;
  timestamp : float;
  type : AnnotationType;
  question : jsstring;
  requirements : jsstring;
  feedbackDuration : float
}.
End Annotation.

(** [Omit<Annotation, 'id'>]. *)
Module Omit.
Record t := mk {
  timestamp : float;
  type : AnnotationType;
  question : jsstring;
  requirements : jsstring;
  feedbackDuration : float
}.

(** [{ ...updatedAnnotation, id }]. *)
Definition withId (u : t) (id : jsstring) : Annotation.t :=
  {| Annotation.id := id;
     Annotation.timestamp := timestamp u;
     Annotation.type := type u;
     Annotation.question := question u;
     Annotation.requirements := requirements u;
     Annotation.feedbackDuration := feedbackDuration u |}.
End Omit.

(** The [editForm] cell of the panel. *)
Module EditForm.
Record t := mk {
  type : AnnotationType;
  question : jsstring;
  requirements : jsstring;
  feedbackDuration : float
}.
End EditForm.

(** ** Objects, for the rest pattern of the export

    [({ id, ...rest }) => rest] works on the own properties of the
    object, so the export sees an annotation as its list of properties. *)

Module Obj.

Inductive value :=
| Num (x : float)
| Str (s : jsstring).

Definition object := list (jsstring * value).

Fixpoint get (k : jsstring) (o : object) : option value :=
  match o with
  | [] => None
  | (k', v) :: o' => if streq k' k then Some v else get k o'
  end.

Definition keys (o : object) : list jsstring := map fst o.

(** The rest of [o] once the property [k] is taken out of it. *)
Definition rest (k : jsstring) (o : object) : object :=
  filter (fun kv => negb (streq (fst kv) k)) o.

Definition ofType (ty : AnnotationType) : value :=
  match ty with
  | VLM => Str (js "VLM")
  | LLM => Str (js "LLM")
  end.

(** The properties of a record in the order [handleDoneAnnotation]
    writes them; [handleUpdateAnnotation] writes [id] last, and the rest
    without [id] is the same list. *)
Definition ofAnnotation (a : Annotation.t) : object :=
  [ (js "id", Str (Annotation.id a));
    (js "timestamp", Num (Annotation.timestamp a));
    (js "type", ofType (Annotation.type a));
    (js "question", Str (Annotation.question a));
    (js "requirements", Str (Annotation.requirements a));
    (js "feedbackDuration", Num (Annotation.feedbackDuration a)) ].

End Obj.

(** ** The [App] component (App.tsx) *)

Module App.

Inductive VideoType := youtube | direct.

Record State := mk {
  videoUrl : jsstring;
  inputUrl : jsstring;
  currentTime : float;
  isPaused : bool;
  isAnnotating : bool;
  annotations : list Annotation.t;
  videoType : VideoType;
  youtubeVideoId : jsstring;
  videoFileName : jsstring;
  subtitleUrl : jsstring;
  subtitleFileName : jsstring
}.

Definition initial : State :=
  {| videoUrl := []; inputUrl := []; currentTime := 0; isPaused := true;
     isAnnotating := false; annotations := []; videoType := direct;
     youtubeVideoId := []; videoFileName := []; subtitleUrl := [];
     subtitleFileName := [] |}.

Definition setVideoUrl (v : jsstring) (s : State) : State :=
  mk v (inputUrl s) (currentTime s) (isPaused s) (isAnnotating s)
     (annotations s) (videoType s) (youtubeVideoId s) (videoFileName s)
     (subtitleUrl s) (subtitleFileName s).
Definition setInputUrl (v : jsstring) (s : State) : State :=
  mk (videoUrl s) v (currentTime s) (isPaused s) (isAnnotating s)
     (annotations s) (videoType s) (youtubeVideoId s) (videoFileName s)
     (subtitleUrl s) (subtitleFileName s).
Definition setCurrentTime (v : float) (s : State) : State :=
  mk (videoUrl s) (inputUrl s) v (isPaused s) (isAnnotating s)
     (annotations s) (videoType s) (youtubeVideoId s) (videoFileName s)
     (subtitleUrl s) (subtitleFileName s).
Definition setIsPaused (v : bool) (s : State) : State :=
  mk (videoUrl s) (inputUrl s) (currentTime s) v (isAnnotating s)
     (annotations s) (videoType s) (youtubeVideoId s) (videoFileName s)
     (subtitleUrl s) (subtitleFileName s).
Definition setIsAnnotating (v : bool) (s : State) : State :=
  mk (videoUrl s) (inputUrl s) (currentTime s) (isPaused s) v
     (annotations s) (videoType s) (youtubeVideoId s) (videoFileName s)
     (subtitleUrl s) (subtitleFileName s).
Definition setAnnotations (v : list Annotation.t) (s : State) : State :=
  mk (videoUrl s) (inputUrl s) (currentTime s) (isPaused s) (isAnnotating s)
     v (videoType s) (youtubeVideoId s) (videoFileName s)
     (subtitleUrl s) (subtitleFileName s).
Definition setVideoType (v : VideoType) (s : State) : State :=
  mk (videoUrl s) (inputUrl s) (currentTime s) (isPaused s) (isAnnotating s)
     (annotations s) v (youtubeVideoId s) (videoFileName s)
     (subtitleUrl s) (subtitleFileName s).
Definition setYoutubeVideoId (v : jsstring) (s : State) : State :=
  mk (videoUrl s) (inputUrl s) (currentTime s) (isPaused s) (isAnnotating s)
     (annotations s) (videoType s) v (videoFileName s)
     (subtitleUrl s) (subtitleFileName s).
Definition setVideoFileName (v : jsstring) (s : State) : State :=
  mk (videoUrl s) (inputUrl s) (currentTime s) (isPaused s) (isAnnotating s)
     (annotations s) (videoType s) (youtubeVideoId s) v
     (subtitleUrl s) (subtitleFileName s).

(** [inputUrl.split('/').pop() || '']. *)
Definition lastSegment (url : jsstring) : jsstring :=
  match pop (split 47%N url) with
  | Some x => orEmpty x
  | None => []
  end.

(** [extractYouTubeVideoId] gives [null] or a non-empty string, so
    [if (youtubeId)] is the test for [null]. *)
Definition handleLoadVideo (s : State) : State :=
  if truthy (trim (inputUrl s)) then
    let s1 :=
      match extractYouTubeVideoId (inputUrl s) with
      | Some youtubeId =>
          setVideoFileName []
            (setVideoUrl (inputUrl s)
              (setYoutubeVideoId youtubeId (setVideoType youtube s)))
      | None =>
          setVideoFileName (lastSegment (inputUrl s))
            (setVideoUrl (inputUrl s) (setVideoType direct s))
      end in
    setIsPaused true (setAnnotations [] s1)
  else s.

(** The file the user picked, and the URL that [URL.createObjectURL]
    hands out for it. *)
Record File := { name : jsstring; objectURL : jsstring }.

(** [file] is [event.target.files?.[0]]. *)
Definition handleFileUpload (file : option File) (s : State) : State :=
  match file with
  | Some f =>
      setIsPaused true
        (setAnnotations []
          (setInputUrl []
            (setVideoFileName (name f)
              (setVideoUrl (objectURL f) (setVideoType direct s)))))
  | None => s
  end.

Definition handleStartAnnotation (s : State) : State :=
  setIsPaused true (setIsAnnotating true s).

(** [now] is the value of [Date.now()] when the handler runs;
    [manualTimestamp ?? currentTime]. *)
Definition handleDoneAnnotation (now : Z) (type : AnnotationType)
    (question requirements : jsstring) (feedbackDuration : float)
    (manualTimestamp : option float) (s : State) : State :=
  let newAnnotation :=
    {| Annotation.id := toString now;
       Annotation.timestamp :=
         match manualTimestamp with
         | Some t => t
         | None => currentTime s
         end;
       Annotation.type := type;
       Annotation.question := question;
       Annotation.requirements := requirements;
       Annotation.feedbackDuration := feedbackDuration |} in
  setIsPaused false
    (setIsAnnotating false
      (setAnnotations (annotations s ++ [newAnnotation]) s)).

Definition handleDeleteAnnotation (id : jsstring) (s : State) : State :=
  setAnnotations
    (filter (fun ann => negb (streq (Annotation.id ann) id)) (annotations s))
    s.

Definition handleUpdateAnnotation (id : jsstring) (updatedAnnotation : Omit.t)
    (s : State) : State :=
  setAnnotations
    (map (fun ann =>
            if streq (Annotation.id ann) id
            then Omit.withId updatedAnnotation id
            else ann)
         (annotations s))
    s.

(** The object handed to [JSON.stringify]. *)
Module JsonData.
Record t := mk {
  videoUrl : jsstring;
  totalAnnotations : nat;
  annotations : list Obj.object
}.
End JsonData.

(** The anchor element that is clicked: its [download] name and the
    data of the blob behind its [href]. *)
Record Download := { download : jsstring; content : JsonData.t }.

Definition jsonData (s : State) : JsonData.t :=
  {| JsonData.videoUrl := videoUrl s;
     JsonData.totalAnnotations := List.length (annotations s);
     JsonData.annotations :=
       map (fun a => Obj.rest (js "id") (Obj.ofAnnotation a)) (annotations s) |}.

(** No setter is called: the state after is the state before. *)
Definition handleGenerateJSON (now : Z) (s : State) : State * Download :=
  (s, {| download := js "video-annotations-" ++ toString now ++ js ".json";
         content := jsonData s |}).

(** *** [convertSrtToVtt] *)

Definition isDigit (c : codeunit) : bool := ((48 <=? c) && (c <=? 57))%N.
Definition colon : codeunit := 58%N.
Definition comma : codeunit := 44%N.
Definition period : codeunit := 46%N.

(** [/(\d{2}:\d{2}:\d{2}),(\d{3})/] matches at the start of [s]. *)
Definition stampAt (s : jsstring) : bool :=
  match s with
  | d1 :: d2 :: c1 :: d3 :: d4 :: c2 :: d5 :: d6 :: cm :: d7 :: d8 :: d9 :: _ =>
      isDigit d1 && isDigit d2 && N.eqb c1 colon
      && isDigit d3 && isDigit d4 && N.eqb c2 colon
      && isDigit d5 && isDigit d6 && N.eqb cm comma
      && isDigit d7 && isDigit d8 && isDigit d9
  | _ => false
  end.

(** [srt.replace(/(\d{2}:\d{2}:\d{2}),(\d{3})/g, '$1.$2')]: the scan goes
    left to right; a match of twelve units is replaced by its first
    group (eight units), a period and its second group (three units),
    and the scan resumes behind the match; a unit where no match starts
    is copied. *)
Equations? replaceTimestamps (s : jsstring) : jsstring
    by wf (List.length s) lt :=
  replaceTimestamps [] := [];
  replaceTimestamps (c :: t) with stampAt (c :: t) => {
    | true := firstn 8 (c :: t) ++ [period] ++ firstn 3 (skipn 9 (c :: t))
              ++ replaceTimestamps (skipn 12 (c :: t));
    | false := c :: replaceTimestamps t }.
Proof.
  change (List.length (skipn 11 t) < S (List.length t)).
  rewrite length_skipn. lia.
Qed.

Definition convertSrtToVtt (srt : jsstring) : jsstring :=
  let vtt := js "WEBVTT" ++ [LF; LF] in
  vtt ++ replaceTimestamps srt.

End App.

(** ** The [AnnotationPanel] component

    The panel reads [isAnnotating], [annotations] and [currentTime] from
    [App] and calls back into it, so its handlers run on both states. *)

Module Panel.

Record State := mk {
  annotationType : AnnotationType;
  annotationQuestion : jsstring;
  annotationRequirements : jsstring;
  feedbackDuration : float;
  editingId : option jsstring;
  editForm : option EditForm.t
}.

Definition initial : State :=
  {| annotationType := VLM; annotationQuestion := [];
     annotationRequirements := []; feedbackDuration := 6;
     editingId := None; editForm := None |}.

Definition setAnnotationType (v : AnnotationType) (p : State) : State :=
  mk v (annotationQuestion p) (annotationRequirements p) (feedbackDuration p)
     (editingId p) (editForm p).
Definition setAnnotationQuestion (v : jsstring) (p : State) : State :=
  mk (annotationType p) v (annotationRequirements p) (feedbackDuration p)
     (editingId p) (editForm p).
Definition setAnnotationRequirements (v : jsstring) (p : State) : State :=
  mk (annotationType p) (annotationQuestion p) v (feedbackDuration p)
     (editingId p) (editForm p).
Definition setFeedbackDuration (v : float) (p : State) : State :=
  mk (annotationType p) (annotationQuestion p) (annotationRequirements p) v
     (editingId p) (editForm p).
Definition setEditingId (v : option jsstring) (p : State) : State :=
  mk (annotationType p) (annotationQuestion p) (annotationRequirements p)
     (feedbackDuration p) v (editForm p).
Definition setEditForm (v : option EditForm.t) (p : State) : State :=
  mk (annotationType p) (annotationQuestion p) (annotationRequirements p)
     (feedbackDuration p) (editingId p) v.

End Panel.

(** The two components together. *)
Record World := { app : App.State; panel : Panel.State }.

Definition initialWorld : World :=
  {| app := App.initial; panel := Panel.initial |}.

(** [now] is the value of [Date.now()] inside [onDoneAnnotation]; the
    [currentTime] prop is [App]'s cell of that name. *)
Definition handleDone (now : Z) (w : World) : World :=
  let p := panel w in
  if truthy (trim (Panel.annotationQuestion p)) then
    {| app :=
         App.handleDoneAnnotation now (Panel.annotationType p)
           (Panel.annotationQuestion p) (Panel.annotationRequirements p)
           (Panel.feedbackDuration p) (Some (App.currentTime (app w))) (app w);
       panel :=
         Panel.setFeedbackDuration 6
           (Panel.setAnnotationRequirements []
             (Panel.setAnnotationQuestion [] p)) |}
  else w.

Definition handleEdit (annotation : Annotation.t) (w : World) : World :=
  {| app := app w;
     panel :=
       Panel.setEditForm
         (Some {| EditForm.type := Annotation.type annotation;
                  EditForm.question := Annotation.question annotation;
                  EditForm.requirements := Annotation.requirements annotation;
                  EditForm.feedbackDuration :=
                    Annotation.feedbackDuration annotation |})
         (Panel.setEditingId (Some (Annotation.id annotation)) (panel w)) |}.

(** The replacement that [handleSaveEdit] builds from the record whose
    Save button was clicked and the form. *)
Definition editedFields (annotation : Annotation.t) (f : EditForm.t) : Omit.t :=
  {| Omit.timestamp := Annotation.timestamp annotation;
     Omit.type := EditForm.type f;
     Omit.question := EditForm.question f;
     Omit.requirements := EditForm.requirements f;
     Omit.feedbackDuration := EditForm.feedbackDuration f |}.

Definition handleSaveEdit (annotation : Annotation.t) (w : World) : World :=
  match Panel.editForm (panel w) with
  | Some f =>
      if truthy (trim (EditForm.question f)) then
        {| app :=
             App.handleUpdateAnnotation (Annotation.id annotation)
               (editedFields annotation f) (app w);
           panel := Panel.setEditForm None (Panel.setEditingId None (panel w)) |}
      else w
  | None => w
  end.

Definition handleCancelEdit (w : World) : World :=
  {| app := app w;
     panel := Panel.setEditForm None (Panel.setEditingId None (panel w)) |}.

(** *** Events

    React runs one handler to completion per event; a run of the
    application is the list of events it was given.  [step] is what the
    handler of an event does; which controls the page shows or disables
    in a state is not part of it.  The inputs of the edit form exist
    only while a form is open, and each replaces the form by one that
    differs in a field. *)

Inductive Event :=
| TypeUrl (v : jsstring)
| LoadVideo
| FileUpload (file : option App.File)
| TimeUpdate (time : float)
| PauseChange (paused : bool)
| StartAnnotation
| PickType (v : AnnotationType)
| TypeQuestion (v : jsstring)
| TypeRequirements (v : jsstring)
| TypeFeedbackDuration (v : float)
| Done (now : Z)
| Edit (annotation : Annotation.t)
| TypeEditForm (v : EditForm.t)
| SaveEdit (annotation : Annotation.t)
| CancelEdit
| Delete (id : jsstring)
| GenerateJSON (now : Z).

Definition onApp (f : App.State -> App.State) (w : World) : World :=
  {| app := f (app w); panel := panel w |}.

Definition onPanel (f : Panel.State -> Panel.State) (w : World) : World :=
  {| app := app w; panel := f (panel w) |}.

Definition step (e : Event) (w : World) : World :=
  match e with
  | TypeUrl v => onApp (App.setInputUrl v) w
  | LoadVideo => onApp App.handleLoadVideo w
  | FileUpload file => onApp (App.handleFileUpload file) w
  | TimeUpdate time => onApp (App.setCurrentTime time) w
  | PauseChange paused => onApp (App.setIsPaused paused) w
  | StartAnnotation => onApp App.handleStartAnnotation w
  | PickType v => onPanel (Panel.setAnnotationType v) w
  | TypeQuestion v => onPanel (Panel.setAnnotationQuestion v) w
  | TypeRequirements v => onPanel (Panel.setAnnotationRequirements v) w
  | TypeFeedbackDuration v => onPanel (Panel.setFeedbackDuration v) w
  | Done now => handleDone now w
  | Edit annotation => handleEdit annotation w
  | TypeEditForm v =>
      match Panel.editForm (panel w) with
      | Some _ => onPanel (Panel.setEditForm (Some v)) w
      | None => w
      end
  | SaveEdit annotation => handleSaveEdit annotation w
  | CancelEdit => handleCancelEdit w
  | Delete id => onApp (App.handleDeleteAnnotation id) w
  | GenerateJSON now => onApp (fun s => fst (App.handleGenerateJSON now s)) w
  end.

Fixpoint run (es : list Event) (w : World) : World :=
  match es with
  | [] => w
  | e :: es' => run es' (step e w)
  end.

(** ** The [YouTubePlayer] component (YouTubePlayer.tsx) *)

Module YouTubePlayer.

(** The link offered when the embedded player fails:
    [`https://www.youtube.com/watch?v=${videoId}`]. *)
Definition youtubeUrl (videoId : jsstring) : jsstring :=
  js "https://www.youtube.com/watch?v=" ++ videoId.

End YouTubePlayer.

(** ** The vocabulary of the specification *)

(** [url] holds one of the markers, followed at once by a unit that is
    neither [&], [?] nor white space. *)
Definition markerThenId (url : jsstring) : Prop :=
  exists pre m c rest,
    In m markers /\ url = pre ++ m ++ c :: rest /\ isIdChar c = true.

(** [url] is eleven units of [[a-zA-Z0-9_-]] and nothing else. *)
Definition bareId (url : jsstring) : Prop :=
  List.length url = 11 /\ Forall (fun c => isBareIdChar c = true) url.

Definition hosted (url : jsstring) : Prop := markerThenId url \/ bareId url.

(** The text is empty once trimmed. *)
Definition blank (q : jsstring) : Prop := trim q = [].

Definition ids (l : list Annotation.t) : list jsstring := map Annotation.id l.

(** How many records of [l] carry the id [id]. *)
Definition countId (id : jsstring) (l : list Annotation.t) : nat :=
  List.length (filter (fun a => streq (Annotation.id a) id) l).

(** The records of [l] whose id is not [id], in the order of [l]. *)
Definition others (id : jsstring) (l : list Annotation.t) : list Annotation.t :=
  filter (fun a => negb (streq (Annotation.id a) id)) l.

(** The data of a record: every field but the id. *)
Definition dataOf (a : Annotation.t) : Omit.t :=
  {| Omit.timestamp := Annotation.timestamp a;
     Omit.type := Annotation.type a;
     Omit.question := Annotation.question a;
     Omit.requirements := Annotation.requirements a;
     Omit.feedbackDuration := Annotation.feedbackDuration a |}.

(** A run that a user can perform on a freshly opened page: load a
    direct video and author an annotation, then draft a second one and
    commit it; [t1] and [t2] are the clock readings at the two clicks
    on DONE. *)
Definition firstCommit (t1 : Z) : list Event :=
  [ TypeUrl (js "https://cdn.example.com/clip.mp4"); LoadVideo;
    StartAnnotation; TypeQuestion (js "What color is the car?"); Done t1 ].

Definition secondDraft : list Event :=
  [ StartAnnotation; TypeQuestion (js "Who is driving?") ].

Definition twoCommits (t1 t2 : Z) : list Event :=
  firstCommit t1 ++ secondDraft ++ [ Done t2 ].

(** The record that a commit at the clock reading [now] builds from the
    draft of the panel and the playback time. *)
Definition committed (now : Z) (w : World) : Annotation.t :=
  {| Annotation.id := toString now;
     Annotation.timestamp := App.currentTime (app w);
     Annotation.type := Panel.annotationType (panel w);
     Annotation.question := Panel.annotationQuestion (panel w);
     Annotation.requirements := Panel.annotationRequirements (panel w);
     Annotation.feedbackDuration := Panel.feedbackDuration (panel w) |}.

(** The unit at index [i] of [s] is the delimiter of a timestamp: the
    ninth unit of a [dd:dd:dd,ddd] that starts at index [i - 8]. *)
Definition delimiterAt (s : jsstring) (i : nat) : Prop :=
  8 <= i /\ App.stampAt (skipn (i - 8) s) = true.

(** The example of the spec, with its line feeds. *)
Definition srtExample : jsstring :=
  js "1" ++ [LF] ++ js "00:00:01,000 --> 00:00:02,500" ++ [LF]
  ++ js "Hello" ++ [LF].

Definition vttExample : jsstring :=
  js "WEBVTT" ++ [LF; LF] ++ js "1" ++ [LF]
  ++ js "00:00:01.000 --> 00:00:02.500" ++ [LF] ++ js "Hello" ++ [LF].

(** *** Concrete states

    Each is reached from the opened page by a run of events. *)

(** The record that [firstCommit 1000] authors. *)
Definition carAnnotation : Annotation.t :=
  {| Annotation.id := js "1000";
     Annotation.timestamp := 0;
     Annotation.type := VLM;
     Annotation.question := js "What color is the car?";
     Annotation.requirements := [];
     Annotation.feedbackDuration := 6 |}.

(** One record, and a second draft with a question. *)
Definition draftWorld : World :=
  run (firstCommit 1000 ++ secondDraft) initialWorld.

(** One record, and a second draft whose question is three spaces. *)
Definition blankDraftWorld : World :=
  run (firstCommit 1000 ++ [ StartAnnotation; TypeQuestion (js "   ") ])
      initialWorld.

Definition truckForm : EditForm.t :=
  {| EditForm.type := LLM;
     EditForm.question := js "What color is the truck?";
     EditForm.requirements := js "one word";
     EditForm.feedbackDuration := 3 |}.

(** One record, in edit mode, with the form filled in. *)
Definition editingWorld : World :=
  run (firstCommit 1000 ++ [ Edit carAnnotation; TypeEditForm truckForm ])
      initialWorld.

(** The same, with the question of the form wiped. *)
Definition wipedFormWorld : World :=
  run (firstCommit 1000
       ++ [ Edit carAnnotation;
            TypeEditForm
              {| EditForm.type := LLM;
                 EditForm.question := [ 32%N; LF ];
                 EditForm.requirements := js "one word";
                 EditForm.feedbackDuration := 3 |} ])
      initialWorld.





(** *** Runs *)

(** The clock readings at the clicks on DONE of a run, in order. *)
Fixpoint clocks (es : list Event) : list Z :=
  match es with
  | [] => []
  | Done now :: es' => now :: clocks es'
  | _ :: es' => clocks es'
  end.

(** Every record of the collection has a question that is not blank. *)
Definition questionsGiven (w : World) : Prop :=
  Forall (fun a => ~ blank (Annotation.question a)) (App.annotations (app w)).

(** No timestamp of the SubRip format starts anywhere in [s]. *)
Definition noStamp (s : jsstring) : Prop :=
  forall k, App.stampAt (skipn k s) = false.

(** [/]. *)
Definition slash : codeunit := 47%N.

(** [post] is empty or starts with a unit that cannot be part of an
    identifier. *)
Definition endsId (post : jsstring) : Prop :=
  post = [] \/ exists c t, post = c :: t /\ isIdChar c = false.

(** * Facts about strings *)

Lemma streq_eq (a b : jsstring) : streq a b = true <-> a = b.
Proof.
  revert b; induction a as [|x a IH]; intros [|y b]; simpl;
    try (split; [discriminate | discriminate]); try tauto.
  rewrite andb_true_iff, N.eqb_eq, IH.
  split; [intros [-> ->]; reflexivity | intros [= -> ->]; auto].
Qed.

Lemma streq_refl (a : jsstring) : streq a a = true.
Proof. apply streq_eq; reflexivity. Qed.

Lemma streq_neq (a b : jsstring) : streq a b = false <-> a <> b.
Proof.
  rewrite <- streq_eq. destruct (streq a b); split; congruence.
Qed.

Lemma truthy_true (s : jsstring) : truthy s = true <-> s <> [].
Proof. destruct s; simpl; split; congruence. Qed.

Lemma truthy_false (s : jsstring) : truthy s = false <-> s = [].
Proof. destruct s; simpl; split; congruence. Qed.

Lemma js_inj (s t : string) : js s = js t -> s = t.
Proof.
  unfold js; intros H.
  rewrite <- (string_of_list_ascii_of_string s),
          <- (string_of_list_ascii_of_string t).
  f_equal.
  revert H; generalize (list_ascii_of_string s) (list_ascii_of_string t).
  induction l as [|a l IH]; intros [|b l']; simpl; try discriminate; auto.
  intros [= Hab Hl]. f_equal; auto.
  rewrite <- (ascii_N_embedding a), <- (ascii_N_embedding b), Hab; reflexivity.
Qed.

Lemma to_int_proper (n : Z) :
  Z.to_int n <> Decimal.Pos Decimal.Nil /\ Z.to_int n <> Decimal.Neg Decimal.Nil.
Proof.
  destruct n; simpl; split; try discriminate;
    intros [= H]; revert H; apply DecimalPos.Unsigned.to_uint_nonnil.
Qed.

(** Two clock readings with the same decimal rendering are equal. *)
Lemma toString_inj (m n : Z) : toString m = toString n -> m = n.
Proof.
  unfold toString; intros H; apply js_inj in H.
  apply DecimalZ.to_int_inj.
  destruct (to_int_proper m) as [Hm1 Hm2], (to_int_proper n) as [Hn1 Hn2].
  pose proof (NilZero.isi _ Hm1 Hm2) as Em.
  pose proof (NilZero.isi _ Hn1 Hn2) as En.
  rewrite H in Em. congruence.
Qed.

Lemma stripPrefix_Some (p s r : jsstring) :
  stripPrefix p s = Some r <-> s = p ++ r.
Proof.
  revert s; induction p as [|a p IH]; intros s; simpl.
  - split; congruence.
  - destruct s as [|b s]; [split; discriminate|].
    destruct (N.eqb_spec a b) as [->|Hab].
    + rewrite IH; split; congruence.
    + split; [discriminate | congruence].
Qed.

Lemma dropWhile_keeps (f : codeunit -> bool) (c : codeunit) (s : jsstring) :
  In c s -> f c = false -> In c (dropWhile f s).
Proof.
  induction s as [|x s IH]; simpl; [tauto|].
  intros [-> | Hin] Hc.
  - rewrite Hc; left; reflexivity.
  - destruct (f x); [auto | right; assumption].
Qed.

Lemma dropWhile_incl (f : codeunit -> bool) (c : codeunit) (s : jsstring) :
  In c (dropWhile f s) -> In c s.
Proof.
  induction s as [|x s IH]; simpl; [tauto|].
  destruct (f x); [right; auto | simpl; tauto].
Qed.

Lemma dropWhile_head (f : codeunit -> bool) (s : jsstring) (c : codeunit)
    (t : jsstring) :
  dropWhile f s = c :: t -> f c = false.
Proof.
  induction s as [|x s IH]; simpl; [discriminate|].
  destruct (f x) eqn:E; [assumption | intros [= <- _]; assumption].
Qed.

(** [trim] leaves something exactly when some unit is not white space. *)
Lemma trim_nonempty (s : jsstring) :
  trim s <> [] <-> exists c, In c s /\ isWhiteSpace c = false.
Proof.
  unfold trim, trimEnd, trimStart; split.
  - intros H.
    destruct (dropWhile isWhiteSpace (rev (dropWhile isWhiteSpace s)))
      as [|c t] eqn:E; [contradiction H; reflexivity|].
    exists c; split.
    + apply (dropWhile_incl isWhiteSpace), in_rev,
        (dropWhile_incl isWhiteSpace).
      rewrite E; left; reflexivity.
    + exact (dropWhile_head _ _ E).
  - intros (c & Hin & Hc) E.
    assert (In c (rev (dropWhile isWhiteSpace
                        (rev (dropWhile isWhiteSpace s))))) as Hc'.
    { apply in_rev. rewrite rev_involutive.
      apply dropWhile_keeps; [|assumption].
      apply in_rev. rewrite rev_involutive.
      apply dropWhile_keeps; assumption. }
    rewrite E in Hc'; exact Hc'.
Qed.

(** * Selecting the engine (C2) *)

Ltac unbool :=
  repeat rewrite ?orb_true_iff, ?orb_false_iff, ?andb_true_iff,
    ?andb_false_iff, ?negb_true_iff, ?negb_false_iff,
    ?N.leb_le, ?N.leb_gt, ?N.eqb_eq, ?N.eqb_neq in *.

Lemma isIdChar_not_space (c : codeunit) :
  isIdChar c = true -> isWhiteSpace c = false.
Proof.
  unfold isIdChar. rewrite negb_true_iff, !orb_false_iff. tauto.
Qed.

Lemma isBareIdChar_not_space (c : codeunit) :
  isBareIdChar c = true -> isWhiteSpace c = false.
Proof.
  unfold isBareIdChar, isWhiteSpace. unbool. lia.
Qed.

Lemma takeWhile_nonempty (f : codeunit -> bool) (s : jsstring) :
  takeWhile f s <> [] <-> exists c rest, s = c :: rest /\ f c = true.
Proof.
  destruct s as [|c rest]; simpl.
  - split; [congruence | intros (? & ? & [=] & _)].
  - destruct (f c) eqn:E; split; try congruence.
    + intros _; eauto.
    + intros (? & ? & [= <- <-] & ?); congruence.
Qed.

Lemma captureAfter_None (m s : jsstring) :
  captureAfter m s <> None <->
  exists c rest, s = m ++ c :: rest /\ isIdChar c = true.
Proof.
  unfold captureAfter.
  destruct (stripPrefix m s) as [r|] eqn:E.
  - apply stripPrefix_Some in E; subst s.
    pose proof (takeWhile_nonempty isIdChar r) as T.
    destruct (takeWhile isIdChar r) eqn:Er.
    + split; [congruence|].
      intros (c & rest & H & Hc). apply app_inv_head in H.
      exfalso. apply (proj2 T); [eauto | reflexivity].
    + split; [|congruence]. intros _.
      destruct (proj1 T) as (c' & rest & -> & Hc); [congruence | eauto].
  - split; [congruence|].
    intros (c & rest & -> & _).
    assert (stripPrefix m (m ++ c :: rest) = Some (c :: rest)) as E'
      by (apply stripPrefix_Some; reflexivity).
    congruence.
Qed.

Lemma captureAfter_truthy (m s cap : jsstring) :
  captureAfter m s = Some cap -> truthy cap = true.
Proof.
  unfold captureAfter.
  destruct (stripPrefix m s); [|discriminate].
  destruct (takeWhile isIdChar j); [discriminate|].
  intros [= <-]; reflexivity.
Qed.

Lemma urlPatternAt_None (ms : list jsstring) (s : jsstring) :
  urlPatternAt ms s <> None <->
  exists m c rest, In m ms /\ s = m ++ c :: rest /\ isIdChar c = true.
Proof.
  induction ms as [|m ms IH]; simpl.
  - split; [congruence | intros (? & ? & ? & [] & _)].
  - pose proof (captureAfter_None m s) as C.
    destruct (captureAfter m s) as [cap|].
    + split; [|congruence]. intros _.
      destruct (proj1 C) as (c & rest & ? & ?); [congruence|].
      exists m, c, rest; auto.
    + rewrite IH. split.
      * intros (m' & c & rest & ? & ? & ?). exists m', c, rest; auto.
      * intros (m' & c & rest & [<- | Hin] & Hs & Hc).
        -- exfalso. apply (proj2 C); eauto.
        -- exists m', c, rest; auto.
Qed.

Lemma urlPatternAt_truthy (ms : list jsstring) (s cap : jsstring) :
  urlPatternAt ms s = Some cap -> truthy cap = true.
Proof.
  induction ms as [|m ms IH]; simpl; [discriminate|].
  destruct (captureAfter m s) eqn:E; [|assumption].
  intros [= <-]. exact (captureAfter_truthy _ _ E).
Qed.

Lemma urlPattern_unfold (s : jsstring) :
  urlPattern s =
  match urlPatternAt markers s with
  | Some cap => Some cap
  | None => match s with [] => None | _ :: t => urlPattern t end
  end.
Proof. destruct s; reflexivity. Qed.

Lemma urlPattern_None (s : jsstring) :
  urlPattern s <> None <-> markerThenId s.
Proof.
  unfold markerThenId.
  induction s as [|x s IH]; rewrite urlPattern_unfold;
    pose proof (urlPatternAt_None markers) as A.
  - destruct (urlPatternAt markers []) eqn:E.
    + split; [|congruence]. intros _.
      destruct (proj1 (A [])) as (m & c & rest & ? & ? & ?);
        [congruence|].
      exists [], m, c, rest; simpl; auto.
    + split; [congruence|].
      intros (pre & m & c & rest & Hin & Hs & Hc).
      destruct pre; [simpl in Hs|discriminate].
      exfalso. apply (proj2 (A [])); [|exact E]. exists m, c, rest; auto.
  - destruct (urlPatternAt markers (x :: s)) eqn:E.
    + split; [|congruence]. intros _.
      destruct (proj1 (A (x :: s))) as (m & c & rest & ? & ? & ?);
        [congruence|].
      exists [], m, c, rest; simpl; auto.
    + rewrite IH. split.
      * intros (pre & m & c & rest & Hin & -> & Hc).
        exists (x :: pre), m, c, rest; auto.
      * intros (pre & m & c & rest & Hin & Hs & Hc).
        destruct pre as [|y pre].
        -- simpl in Hs. exfalso. apply (proj2 (A (x :: s))); [|exact E]. exists m, c, rest; auto.
        -- injection Hs as -> ->. exists pre, m, c, rest; auto.
Qed.

Lemma urlPattern_truthy (s cap : jsstring) :
  urlPattern s = Some cap -> truthy cap = true.
Proof.
  induction s as [|x s IH]; rewrite urlPattern_unfold.
  - destruct (urlPatternAt markers []) eqn:E; [|discriminate].
    intros [= <-]. exact (urlPatternAt_truthy _ _ E).
  - destruct (urlPatternAt markers (x :: s)) eqn:E; [|assumption].
    intros [= <-]. exact (urlPatternAt_truthy _ _ E).
Qed.

Lemma barePattern_None (s : jsstring) :
  barePattern s <> None <-> bareId s.
Proof.
  unfold barePattern, bareId.
  destruct (Nat.eqb_spec (List.length s) 11) as [L|L]; simpl.
  - destruct (forallb isBareIdChar s) eqn:F.
    + split; [|congruence]. intros _; split; [assumption|].
      rewrite Forall_forall, <- forallb_forall. assumption.
    + split; [congruence|]. intros [_ H].
      rewrite Forall_forall, <- forallb_forall in H. congruence.
  - split; [congruence | tauto].
Qed.

Lemma barePattern_truthy (s cap : jsstring) :
  barePattern s = Some cap -> truthy cap = true.
Proof.
  unfold barePattern.
  destruct (Nat.eqb_spec (List.length s) 11) as [L|L]; simpl; [|discriminate].
  destruct (forallb isBareIdChar s); [|discriminate].
  intros [= <-]. destruct s; [discriminate | reflexivity].
Qed.

(** The function finds an identifier exactly on the hosted sources. *)
Lemma extract_hosted (url : jsstring) :
  extractYouTubeVideoId url <> None <-> hosted url.
Proof.
  unfold extractYouTubeVideoId, hosted; simpl.
  pose proof (urlPattern_None url) as U.
  pose proof (barePattern_None url) as B.
  destruct (urlPattern url) as [cap|] eqn:EU.
  - rewrite (urlPattern_truthy _ EU).
    split; [intros _; left; apply U; congruence | congruence].
  - destruct (barePattern url) as [cap|] eqn:EB.
    + rewrite (barePattern_truthy _ EB).
      split; [intros _; right; apply B; congruence | congruence].
    + split; [congruence|].
      intros [H | H]; [apply U in H | apply B in H]; congruence.
Qed.

(** A hosted source is never blank, so loading it goes through. *)
Lemma hosted_not_blank (url : jsstring) : hosted url -> trim url <> [].
Proof.
  intros H. apply trim_nonempty. destruct H as [H | [L F]].
  - destruct H as (pre & m & c & rest & _ & -> & Hc).
    exists c; split; [|apply isIdChar_not_space; assumption].
    rewrite !in_app_iff; right; right; left; reflexivity.
  - destruct url as [|c url]; [discriminate|].
    exists c; split; [left; reflexivity|].
    apply isBareIdChar_not_space. inversion F; assumption.
Qed.

Lemma loadVideo_videoType (s : App.State) :
  trim (App.inputUrl s) <> [] ->
  App.videoType (App.handleLoadVideo s) =
  match extractYouTubeVideoId (App.inputUrl s) with
  | Some _ => App.youtube
  | None => App.direct
  end.
Proof.
  intros H. apply truthy_true in H.
  unfold App.handleLoadVideo. rewrite H.
  destruct (extractYouTubeVideoId (App.inputUrl s)); reflexivity.
Qed.

(** C2, as the spec words it, fails on its own first example: no marker
    of the pattern occurs in ["https://host/watch?v=abcdefghijk"], the
    source is not eleven units long, no identifier is extracted and the
    load selects the native engine.  A marker with nothing behind it
    (["https://youtu.be/"]) is not enough either. *)
Lemma C2_host_example_is_direct :
  let s := App.handleLoadVideo
             (App.setInputUrl (js "https://host/watch?v=abcdefghijk")
                App.initial) in
  extractYouTubeVideoId (js "https://host/watch?v=abcdefghijk") = None
  /\ App.videoType s = App.direct
  /\ App.videoType s <> App.youtube
  /\ App.videoUrl s = js "https://host/watch?v=abcdefghijk"
  /\ App.videoType
       (App.handleLoadVideo
          (App.setInputUrl (js "https://youtu.be/") App.initial))
     = App.direct.
Proof.
  repeat split; try reflexivity. discriminate.
Qed.

(** C2 (amended): loading ["https://youtube.com/watch?v=abcdefghijk"]
    selects the YouTube engine with identifier ["abcdefghijk"], loading
    ["https://cdn.example.com/clip.mp4"] selects the native engine, and
    a load that goes through (the input is not blank) selects the
    YouTube engine exactly when the source holds one of the markers
    [youtube.com/watch?v=], [youtu.be/], [youtube.com/embed/] followed at
    once by a unit other than [&], [?] and white space, or is exactly
    eleven units of [[a-zA-Z0-9_-]]; such a source is never blank. *)
Theorem C2_engine_selection :
  (forall s,
     let s' := App.handleLoadVideo
                 (App.setInputUrl
                    (js "https://youtube.com/watch?v=abcdefghijk") s) in
     App.videoType s' = App.youtube
     /\ App.youtubeVideoId s' = js "abcdefghijk")
  /\ (forall s,
        App.videoType
          (App.handleLoadVideo
             (App.setInputUrl (js "https://cdn.example.com/clip.mp4") s))
        = App.direct)
  /\ (forall s,
        let url := App.inputUrl s in
        (hosted url -> trim url <> [])
        /\ (trim url <> [] ->
            (App.videoType (App.handleLoadVideo s) = App.youtube
             <-> hosted url))).
Proof.
  split; [|split].
  - intros s; split; reflexivity.
  - intros s; reflexivity.
  - intros s url; split; [apply hosted_not_blank|].
    intros H. rewrite (loadVideo_videoType s H).
    rewrite <- extract_hosted. fold url.
    destruct (extractYouTubeVideoId url); split; congruence.
Qed.

(** * The collection operations (C8, C10, C4, C5) *)

Lemma setAnnotations_same (s : App.State) :
  App.setAnnotations (App.annotations s) s = s.
Proof. destruct s; reflexivity. Qed.

Lemma filter_all {A : Type} (f : A -> bool) (l : list A) :
  (forall a, In a l -> f a = true) -> filter f l = l.
Proof.
  induction l as [|x l IH]; simpl; intros H; [reflexivity|].
  rewrite (H x (or_introl eq_refl)). f_equal. apply IH. auto.
Qed.

Lemma filter_twice {A : Type} (f : A -> bool) (l : list A) :
  filter f (filter f l) = filter f l.
Proof.
  apply filter_all. intros a Ha. apply filter_In in Ha. tauto.
Qed.

Lemma in_ids (id : jsstring) (l : list Annotation.t) :
  In id (ids l) <-> exists a, In a l /\ Annotation.id a = id.
Proof.
  unfold ids. rewrite in_map_iff. split; intros (a & H1 & H2); eauto.
Qed.

Lemma others_In (id : jsstring) (l : list Annotation.t) (a : Annotation.t) :
  In a (others id l) <-> In a l /\ Annotation.id a <> id.
Proof.
  unfold others. rewrite filter_In, negb_true_iff, streq_neq. tauto.
Qed.

Lemma others_absent (id : jsstring) (l : list Annotation.t) :
  ~ In id (ids l) -> others id l = l.
Proof.
  intros H. apply filter_all. intros a Ha.
  rewrite negb_true_iff, streq_neq. intros E.
  apply H, in_ids. eauto.
Qed.

Lemma others_count (id : jsstring) (l : list Annotation.t) :
  List.length (others id l) + countId id l = List.length l.
Proof.
  unfold others, countId.
  induction l as [|a l IH]; simpl; [reflexivity|].
  destruct (streq (Annotation.id a) id); simpl; lia.
Qed.

Lemma others_other (id id' : jsstring) (l : list Annotation.t) :
  id' <> id ->
  filter (fun a => streq (Annotation.id a) id') (others id l)
  = filter (fun a => streq (Annotation.id a) id') l.
Proof.
  intros Hne. unfold others.
  induction l as [|a l IH]; simpl; [reflexivity|].
  destruct (streq (Annotation.id a) id) eqn:E1; simpl.
  - destruct (streq (Annotation.id a) id') eqn:E2; [|assumption].
    apply streq_eq in E1, E2. congruence.
  - rewrite IH. reflexivity.
Qed.

(** C8: [handleDeleteAnnotation id] leaves no record with that id and
    keeps exactly the records of the other ids; when no record has the
    id it changes nothing; and deleting the same id a second time
    changes nothing, so two deletions give the collection (indeed the
    state) that one gives. *)
Theorem C8_delete_idempotent (id : jsstring) (s : App.State) :
  let s1 := App.handleDeleteAnnotation id s in
  ~ In id (ids (App.annotations s1))
  /\ (forall a, In a (App.annotations s1) <->
                In a (App.annotations s) /\ Annotation.id a <> id)
  /\ (~ In id (ids (App.annotations s)) -> s1 = s)
  /\ App.handleDeleteAnnotation id s1 = s1.
Proof.
  cbv zeta. unfold App.handleDeleteAnnotation.
  fold (others id (App.annotations s)). simpl.
  split; [|split; [|split]].
  - rewrite in_ids. intros (a & Ha & E).
    apply others_In in Ha. tauto.
  - intros a. apply others_In.
  - intros H. rewrite (others_absent _ _ H). apply setAnnotations_same.
  - unfold others. rewrite filter_twice. reflexivity.
Qed.

Lemma countId_others (id : jsstring) (l : list Annotation.t) :
  countId id (others id l) = 0.
Proof.
  unfold countId, others.
  induction l as [|a l IH]; simpl; [reflexivity|].
  destruct (streq (Annotation.id a) id) eqn:E; simpl; [assumption|].
  rewrite E. assumption.
Qed.

Lemma twoCommits_ids (t1 t2 : Z) :
  ids (App.annotations (app (run (twoCommits t1 t2) initialWorld)))
  = [toString t1; toString t2].
Proof. reflexivity. Qed.

(** C10: [handleDeleteAnnotation id] keeps the records of the other ids
    and nothing else: no record with the id is left, however many there
    were, and the length drops by their number.  Records that share an
    id do arise: two commits at one clock reading [t] give two records
    with the id [t.toString()], and one deletion removes both. *)
Theorem C10_delete_removes_every_match :
  (forall (id : jsstring) (s : App.State),
     let s1 := App.handleDeleteAnnotation id s in
     App.annotations s1 = others id (App.annotations s)
     /\ countId id (App.annotations s1) = 0
     /\ List.length (App.annotations s1) + countId id (App.annotations s)
        = List.length (App.annotations s)
     /\ (forall id', id' <> id ->
           countId id' (App.annotations s1) = countId id' (App.annotations s)))
  /\ (forall t : Z,
        let w := run (twoCommits t t) initialWorld in
        countId (toString t) (App.annotations (app w)) = 2
        /\ App.annotations (app (step (Delete (toString t)) w)) = []).
Proof.
  split.
  - intros id s. cbv zeta. simpl.
    fold (others id (App.annotations s)).
    split; [reflexivity|]. split; [apply countId_others|].
    split; [apply others_count|].
    intros id' Hne. unfold countId. rewrite (others_other _ Hne). reflexivity.
  - intros t. cbv zeta. split.
    + unfold countId. simpl. rewrite !streq_refl. reflexivity.
    + simpl. rewrite !streq_refl. reflexivity.
Qed.

Lemma update_annotations (id : jsstring) (r : Omit.t) (s : App.State) :
  App.annotations (App.handleUpdateAnnotation id r s)
  = map (fun ann => if streq (Annotation.id ann) id
                    then Omit.withId r id else ann)
        (App.annotations s).
Proof. reflexivity. Qed.

Lemma update_ids (id : jsstring) (r : Omit.t) (s : App.State) :
  ids (App.annotations (App.handleUpdateAnnotation id r s))
  = ids (App.annotations s).
Proof.
  rewrite update_annotations. unfold ids. rewrite map_map.
  apply map_ext. intros a.
  destruct (streq (Annotation.id a) id) eqn:E; [|reflexivity].
  apply streq_eq in E. simpl. congruence.
Qed.

Lemma update_absent (id : jsstring) (r : Omit.t) (s : App.State) :
  ~ In id (ids (App.annotations s)) -> App.handleUpdateAnnotation id r s = s.
Proof.
  intros H. unfold App.handleUpdateAnnotation.
  replace (map _ (App.annotations s)) with (App.annotations s);
    [apply setAnnotations_same|].
  symmetry. erewrite map_ext_in; [apply map_id|].
  intros a Ha. simpl.
  destruct (streq (Annotation.id a) id) eqn:E; [|reflexivity].
  apply streq_eq in E. exfalso. apply H, in_ids. eauto.
Qed.

Lemma update_nth (id : jsstring) (r : Omit.t) (s : App.State) (i : nat)
    (a : Annotation.t) :
  nth_error (App.annotations s) i = Some a ->
  nth_error (App.annotations (App.handleUpdateAnnotation id r s)) i
  = Some (if streq (Annotation.id a) id then Omit.withId r id else a).
Proof.
  intros H. rewrite update_annotations, nth_error_map, H. reflexivity.
Qed.

Lemma dataOf_withId (r : Omit.t) (id : jsstring) :
  dataOf (Omit.withId r id) = r.
Proof. destruct r; reflexivity. Qed.

Lemma saveEdit_annotations (annotation : Annotation.t) (w : World) :
  App.annotations (app (handleSaveEdit annotation w))
  = match Panel.editForm (panel w) with
    | Some f =>
        if truthy (trim (EditForm.question f))
        then App.annotations
               (App.handleUpdateAnnotation (Annotation.id annotation)
                  (editedFields annotation f) (app w))
        else App.annotations (app w)
    | None => App.annotations (app w)
    end.
Proof.
  unfold handleSaveEdit.
  destruct (Panel.editForm (panel w)) as [f|]; [|reflexivity].
  destruct (truthy (trim (EditForm.question f))); reflexivity.
Qed.

(** C4: [handleUpdateAnnotation id r] keeps the length and the ids of
    the collection; a record with the id [id] keeps its id and gets every
    other field from [r]; a record with another id is kept as it is; and
    when no record has the id nothing changes.  The check of the
    question is in [handleSaveEdit], the only caller: it keeps the length
    and the ids, leaves the collection as it is when no record has the
    id, changes nothing at all with a form whose question is blank (or
    with no form), and otherwise calls [handleUpdateAnnotation] with the
    id of the record and the fields of the form, and leaves edit mode. *)
Theorem C4_update_replaces_fields :
  (forall (id : jsstring) (r : Omit.t) (s : App.State),
     let s1 := App.handleUpdateAnnotation id r s in
     List.length (App.annotations s1) = List.length (App.annotations s)
     /\ ids (App.annotations s1) = ids (App.annotations s)
     /\ (forall i a, nth_error (App.annotations s) i = Some a ->
           exists a', nth_error (App.annotations s1) i = Some a'
             /\ Annotation.id a' = Annotation.id a
             /\ (Annotation.id a = id -> dataOf a' = r)
             /\ (Annotation.id a <> id -> a' = a))
     /\ (~ In id (ids (App.annotations s)) -> s1 = s))
  /\ (forall (annotation : Annotation.t) (w : World),
        let w1 := handleSaveEdit annotation w in
        List.length (App.annotations (app w1))
        = List.length (App.annotations (app w))
        /\ ids (App.annotations (app w1)) = ids (App.annotations (app w))
        /\ (~ In (Annotation.id annotation) (ids (App.annotations (app w))) ->
            App.annotations (app w1) = App.annotations (app w))
        /\ (Panel.editForm (panel w) = None -> w1 = w)
        /\ (forall f, Panel.editForm (panel w) = Some f ->
              (blank (EditForm.question f) -> w1 = w)
              /\ (~ blank (EditForm.question f) ->
                  app w1
                  = App.handleUpdateAnnotation (Annotation.id annotation)
                      (editedFields annotation f) (app w)
                  /\ Panel.editingId (panel w1) = None
                  /\ Panel.editForm (panel w1) = None))).
Proof.
  split.
  - intros id r s. cbv zeta.
    split; [rewrite update_annotations; apply length_map|].
    split; [apply update_ids|].
    split; [|apply update_absent].
    intros i a H. rewrite (update_nth id r s i H).
    destruct (streq (Annotation.id a) id) eqn:E.
    + apply streq_eq in E. eexists; split; [reflexivity|].
      split; [simpl; congruence|].
      split; [intros _; apply dataOf_withId | congruence].
    + apply streq_neq in E. eexists; split; [reflexivity|].
      split; [reflexivity|]. split; [congruence | reflexivity].
  - intros annotation w. cbv zeta.
    rewrite saveEdit_annotations.
    split; [|split; [|split; [|split]]].
    + destruct (Panel.editForm (panel w)) as [f|]; [|reflexivity].
      destruct (truthy (trim (EditForm.question f))); [|reflexivity].
      rewrite update_annotations. apply length_map.
    + destruct (Panel.editForm (panel w)) as [f|]; [|reflexivity].
      destruct (truthy (trim (EditForm.question f))); [|reflexivity].
      apply update_ids.
    + intros H.
      destruct (Panel.editForm (panel w)) as [f|]; [|reflexivity].
      destruct (truthy (trim (EditForm.question f))); [|reflexivity].
      rewrite update_absent by assumption. reflexivity.
    + unfold handleSaveEdit. intros ->. reflexivity.
    + unfold handleSaveEdit, blank. intros f ->. split.
      * intros B. apply truthy_false in B. rewrite B. reflexivity.
      * intros B. apply truthy_true in B. rewrite B. simpl. auto.
Qed.

Lemma ids_injective (l : list Annotation.t) (a b : Annotation.t) :
  NoDup (ids l) -> In a l -> In b l ->
  Annotation.id a = Annotation.id b -> a = b.
Proof.
  unfold ids. induction l as [|x l IH]; simpl; [tauto|].
  intros N Ha Hb E. inversion N as [|? ? Hx N']; subst.
  destruct Ha as [-> | Ha], Hb as [-> | Hb]; auto.
  - exfalso. apply Hx. rewrite E. apply in_map. assumption.
  - exfalso. apply Hx. rewrite <- E. apply in_map. assumption.
Qed.




(** * The export (C6) *)

Lemma rest_ofAnnotation (a : Annotation.t) :
  Obj.rest (js "id") (Obj.ofAnnotation a)
  = [ (js "timestamp", Obj.Num (Annotation.timestamp a));
      (js "type", Obj.ofType (Annotation.type a));
      (js "question", Obj.Str (Annotation.question a));
      (js "requirements", Obj.Str (Annotation.requirements a));
      (js "feedbackDuration", Obj.Num (Annotation.feedbackDuration a)) ].
Proof. reflexivity. Qed.

(** C6: the document of [handleGenerateJSON] has [totalAnnotations]
    equal to the length of the collection and as many records as the
    collection; its i-th record comes from the i-th annotation, has no
    [id] property and has the five other properties with the values of
    the annotation; and the handler returns the state it was given. *)
Theorem C6_export_document (now : Z) (s : App.State) :
  let doc := App.content (snd (App.handleGenerateJSON now s)) in
  App.JsonData.totalAnnotations doc = List.length (App.annotations s)
  /\ List.length (App.JsonData.annotations doc)
     = List.length (App.annotations s)
  /\ App.JsonData.videoUrl doc = App.videoUrl s
  /\ (forall i a, nth_error (App.annotations s) i = Some a ->
        exists o, nth_error (App.JsonData.annotations doc) i = Some o
          /\ Obj.get (js "id") o = None
          /\ ~ In (js "id") (Obj.keys o)
          /\ Obj.keys o = [ js "timestamp"; js "type"; js "question";
                            js "requirements"; js "feedbackDuration" ]
          /\ Obj.get (js "timestamp") o
             = Some (Obj.Num (Annotation.timestamp a))
          /\ Obj.get (js "type") o = Some (Obj.ofType (Annotation.type a))
          /\ Obj.get (js "question") o
             = Some (Obj.Str (Annotation.question a))
          /\ Obj.get (js "requirements") o
             = Some (Obj.Str (Annotation.requirements a))
          /\ Obj.get (js "feedbackDuration") o
             = Some (Obj.Num (Annotation.feedbackDuration a)))
  /\ (forall i, List.length (App.annotations s) <= i ->
        nth_error (App.JsonData.annotations doc) i = None)
  /\ fst (App.handleGenerateJSON now s) = s.
Proof.
  cbv zeta. simpl.
  split; [reflexivity|]. split; [apply length_map|]. split; [reflexivity|].
  split; [|split; [|reflexivity]].
  - intros i a H. rewrite nth_error_map, H. simpl.
    eexists; split; [reflexivity|].
    try rewrite rest_ofAnnotation.
    repeat split; try reflexivity.
    unfold Obj.keys; simpl. intros K.
    repeat (destruct K as [K | K]; [discriminate K|]). exact K.
  - intros i H. apply nth_error_None. rewrite length_map. assumption.
Qed.

(** * Committing a draft (C1, C3) and loading a source (C9) *)

Lemma NoDup_snoc {A : Type} (l : list A) (x : A) :
  NoDup (l ++ [x]) <-> NoDup l /\ ~ In x l.
Proof.
  induction l as [|y l IH]; simpl.
  - split; [intros _; split; [constructor | tauto]|].
    intros _; constructor; [simpl; tauto | constructor].
  - rewrite !NoDup_cons_iff, IH, in_app_iff. simpl.
    split; [intros (H1 & H2 & H3) | intros ((H1 & H2) & H3)]; intuition.
Qed.

Lemma handleDone_commits (now : Z) (w : World) :
  ~ blank (Panel.annotationQuestion (panel w)) ->
  app (handleDone now w)
  = App.setIsPaused false
      (App.setIsAnnotating false
         (App.setAnnotations (App.annotations (app w) ++ [committed now w])
            (app w))).
Proof.
  intros B. apply truthy_true in B. unfold handleDone. rewrite B. reflexivity.
Qed.

(** C1, as the spec words it, fails: the id is the clock reading, and a
    second commit at the reading of the first gives the second record
    the id of the first.  The state before the commit is reached from
    the opened page by [firstCommit 1000] and [secondDraft]. *)
Lemma C1_same_clock_repeats_id :
  let w := run (firstCommit 1000 ++ secondDraft) initialWorld in
  let w1 := handleDone 1000 w in
  App.isAnnotating (app w) = true
  /\ trim (Panel.annotationQuestion (panel w)) = js "Who is driving?"
  /\ ids (App.annotations (app w)) = [js "1000"]
  /\ ids (App.annotations (app w1)) = [js "1000"; js "1000"]
  /\ ~ NoDup (ids (App.annotations (app w1))).
Proof.
  repeat split.
  intros N. inversion N as [|? ? H _]. apply H. left; reflexivity.
Qed.

(** C1 (amended): a commit whose question is not blank appends exactly
    one record, built from the draft and the playback time, at the end
    of the collection; its id is [Date.now().toString()]; the length
    grows by one, [isAnnotating] becomes false and [isPaused] becomes
    false.  The id is new to the collection when every record there was
    created at another clock reading, and the ids of the collection
    stay distinct exactly when the new id was not among them. *)
Theorem C1_commit_appends (now : Z) (w : World) :
  ~ blank (Panel.annotationQuestion (panel w)) ->
  let old := App.annotations (app w) in
  let w1 := handleDone now w in
  App.annotations (app w1) = old ++ [committed now w]
  /\ Annotation.id (committed now w) = toString now
  /\ List.length (App.annotations (app w1)) = S (List.length old)
  /\ App.isAnnotating (app w1) = false
  /\ App.isPaused (app w1) = false
  /\ ((forall a, In a old ->
         exists t, Annotation.id a = toString t /\ t <> now) ->
      ~ In (toString now) (ids old))
  /\ (NoDup (ids old) ->
      (NoDup (ids (App.annotations (app w1))) <-> ~ In (toString now) (ids old))).
Proof.
  intros B. cbv zeta. rewrite handleDone_commits by assumption. simpl.
  split; [reflexivity|]. split; [reflexivity|].
  split; [rewrite length_app; simpl; lia|].
  split; [reflexivity|]. split; [reflexivity|]. split.
  - intros H Hin. apply in_ids in Hin. destruct Hin as (a & Ha & E).
    destruct (H a Ha) as (t & Et & Hne).
    apply Hne, toString_inj. congruence.
  - intros N. unfold ids. rewrite map_app. simpl.
    rewrite NoDup_snoc. tauto.
Qed.

(** C3: a commit whose question is blank changes nothing: no record is
    appended, the collection is the one before, the draft is kept, and
    a session that was composing is still composing. *)
Theorem C3_blank_commit_refused (now : Z) (w : World) :
  blank (Panel.annotationQuestion (panel w)) ->
  let w1 := handleDone now w in
  w1 = w
  /\ App.annotations (app w1) = App.annotations (app w)
  /\ (App.isAnnotating (app w) = true -> App.isAnnotating (app w1) = true)
  /\ App.isPaused (app w1) = App.isPaused (app w).
Proof.
  intros B. cbv zeta.
  assert (handleDone now w = w) as ->; [|tauto].
  unfold handleDone. apply truthy_false in B. rewrite B. reflexivity.
Qed.

(** C9: a load from the URL field whose input is not blank, and an
    upload of a file, both leave the collection empty and [isPaused]
    true, whatever the collection held; a load with a blank input and an
    upload with no file change nothing. *)
Theorem C9_load_resets_collection :
  (forall s : App.State,
     ~ blank (App.inputUrl s) ->
     let s1 := App.handleLoadVideo s in
     App.annotations s1 = [] /\ App.isPaused s1 = true
     /\ App.videoUrl s1 = App.inputUrl s)
  /\ (forall (f : App.File) (s : App.State),
        let s1 := App.handleFileUpload (Some f) s in
        App.annotations s1 = [] /\ App.isPaused s1 = true
        /\ App.videoUrl s1 = App.objectURL f
        /\ App.videoType s1 = App.direct)
  /\ (forall s : App.State, blank (App.inputUrl s) -> App.handleLoadVideo s = s)
  /\ (forall s : App.State, App.handleFileUpload None s = s).
Proof.
  split; [|split; [|split]].
  - intros s B. apply truthy_true in B. cbv zeta.
    unfold App.handleLoadVideo. rewrite B.
    destruct (extractYouTubeVideoId (App.inputUrl s)); simpl; auto.
  - intros f s. cbv zeta. simpl. auto.
  - intros s B. apply truthy_false in B.
    unfold App.handleLoadVideo. rewrite B. reflexivity.
  - reflexivity.
Qed.


(** * The subtitle conversion (C7) *)

(** Where a timestamp starts, the scan copies it with a period for the
    comma and resumes behind it. *)
Lemma replaceTimestamps_stamp (s : jsstring) :
  App.stampAt s = true ->
  exists d1 d2 d3 d4 d5 d6 d7 d8 d9 rest,
    s = d1 :: d2 :: App.colon :: d3 :: d4 :: App.colon :: d5 :: d6
          :: App.comma :: d7 :: d8 :: d9 :: rest
    /\ App.replaceTimestamps s
       = d1 :: d2 :: App.colon :: d3 :: d4 :: App.colon :: d5 :: d6
           :: App.period :: d7 :: d8 :: d9 :: App.replaceTimestamps rest.
Proof.
  do 12 (destruct s as [|? s]; [intros H; discriminate H|]).
  intros H.
  rewrite App.replaceTimestamps_equation_2, H,
    App.replaceTimestamps_clause_2_equation_1.
  unfold App.stampAt in H. repeat rewrite andb_true_iff in H.
  destruct H as [[[[[[[[[[[_ _] C1] _] _] C2] _] _] C3] _] _] _].
  apply N.eqb_eq in C1, C2, C3. subst.
  do 10 eexists. split; reflexivity.
Qed.

(** Elsewhere it copies one unit and moves on. *)
Lemma replaceTimestamps_skip (c : codeunit) (t : jsstring) :
  App.stampAt (c :: t) = false ->
  App.replaceTimestamps (c :: t) = c :: App.replaceTimestamps t.
Proof.
  intros H.
  rewrite App.replaceTimestamps_equation_2, H,
    App.replaceTimestamps_clause_2_equation_2.
  reflexivity.
Qed.

Lemma delimiterAt_cons (c : codeunit) (t : jsstring) (j : nat) :
  delimiterAt t j -> delimiterAt (c :: t) (S j).
Proof.
  unfold delimiterAt. intros [H1 H2]. split; [lia|].
  replace (S j - 8) with (S (j - 8)) by lia. exact H2.
Qed.

Lemma delimiterAt_app (pre t : jsstring) (j : nat) :
  delimiterAt t j -> delimiterAt (pre ++ t) (List.length pre + j).
Proof.
  induction pre as [|c pre IH]; simpl; [trivial|].
  intros H. apply delimiterAt_cons. auto.
Qed.

(** What the scan changes: nothing but commas that delimit a timestamp,
    each into a period. *)
Lemma replaceTimestamps_spec (n : nat) :
  forall s, List.length s <= n ->
    List.length (App.replaceTimestamps s) = List.length s
    /\ forall i,
         nth_error (App.replaceTimestamps s) i = nth_error s i
         \/ (nth_error s i = Some App.comma
             /\ nth_error (App.replaceTimestamps s) i = Some App.period
             /\ delimiterAt s i).
Proof.
  induction n as [|n IH]; intros s L.
  - destruct s; [|simpl in L; lia].
    rewrite App.replaceTimestamps_equation_1.
    split; [reflexivity | left; reflexivity].
  - destruct s as [|c t].
    { rewrite App.replaceTimestamps_equation_1.
      split; [reflexivity | left; reflexivity]. }
    destruct (App.stampAt (c :: t)) eqn:E.
    + destruct (replaceTimestamps_stamp _ E)
        as (d1 & d2 & d3 & d4 & d5 & d6 & d7 & d8 & d9 & rest & Hs & Hr).
      rewrite Hr. rewrite Hs in L, E |- *. clear Hr Hs.
      cbn [List.length] in L |- *.
      destruct (IH rest ltac:(lia)) as [Hl Hi].
      split; [rewrite Hl; reflexivity|].
      intros i.
      do 8 (destruct i as [|i]; [left; reflexivity|]).
      destruct i as [|i].
      * right. split; [reflexivity|]. split; [reflexivity|].
        split; [lia | exact E].
      * do 3 (destruct i as [|i]; [left; reflexivity|]).
        cbn [nth_error].
        destruct (Hi i) as [H | (H1 & H2 & H3)]; [left; exact H|].
        right. split; [exact H1|]. split; [exact H2|].
        apply (delimiterAt_app
                 [d1; d2; App.colon; d3; d4; App.colon; d5; d6; App.comma;
                  d7; d8; d9]) in H3.
        exact H3.
    + rewrite (replaceTimestamps_skip _ _ E). cbn [List.length] in L |- *.
      destruct (IH t ltac:(lia)) as [Hl Hi].
      split; [rewrite Hl; reflexivity|].
      intros [|i]; [left; reflexivity|].
      cbn [nth_error].
      destruct (Hi i) as [H | (H1 & H2 & H3)]; [left; exact H|].
      right. split; [exact H1|]. split; [exact H2|].
      apply delimiterAt_cons. exact H3.
Qed.

Lemma cons_inv {A : Type} (x y : A) (l l' : list A) :
  x :: l = y :: l' -> x = y /\ l = l'.
Proof. intros H. injection H. auto. Qed.

Lemma noStamp_cons (c : codeunit) (t : jsstring) :
  noStamp (c :: t) <-> App.stampAt (c :: t) = false /\ noStamp t.
Proof.
  unfold noStamp. split.
  - intros H. split; [exact (H 0) | intros k; exact (H (S k))].
  - intros [H0 H] [|k]; [exact H0 | exact (H k)].
Qed.

Lemma replaceTimestamps_fixed (n : nat) :
  forall s, List.length s <= n ->
    (App.replaceTimestamps s = s <-> noStamp s).
Proof.
  induction n as [|n IH]; intros s L.
  - destruct s; [|simpl in L; lia].
    rewrite App.replaceTimestamps_equation_1.
    split; [intros _ k; destruct k; reflexivity | reflexivity].
  - destruct s as [|c t].
    { rewrite App.replaceTimestamps_equation_1.
      split; [intros _ k; destruct k; reflexivity | reflexivity]. }
    rewrite noStamp_cons.
    destruct (App.stampAt (c :: t)) eqn:E.
    + destruct (replaceTimestamps_stamp _ E)
        as (d1 & d2 & d3 & d4 & d5 & d6 & d7 & d8 & d9 & rest & Hs & Hr).
      rewrite Hr, Hs. split; [|intros [H _]; discriminate H].
      intros H. do 8 (apply cons_inv in H; destruct H as [_ H]).
      apply cons_inv in H. destruct H as [H _]. discriminate H.
    + rewrite (replaceTimestamps_skip _ _ E).
      simpl in L. rewrite <- (IH t) by lia.
      split; [intros H; apply cons_inv in H; tauto|].
      intros [_ ->]. reflexivity.
Qed.

(** Every timestamp of the input is rewritten, unless it starts inside
    an earlier timestamp that was rewritten: the scan resumes behind a
    match. *)
Lemma replaceTimestamps_rewrites (n : nat) :
  forall s k, List.length s <= n ->
    App.stampAt (skipn k s) = true ->
    nth_error (App.replaceTimestamps s) (k + 8) = Some App.period
    \/ exists j,
         j < k /\ k <= j + 11 /\ App.stampAt (skipn j s) = true
         /\ nth_error (App.replaceTimestamps s) (j + 8) = Some App.period.
Proof.
  induction n as [|n IH]; intros s k L H.
  - destruct s; [|simpl in L; lia]. rewrite skipn_nil in H. discriminate H.
  - destruct s as [|c t]; [rewrite skipn_nil in H; discriminate H|].
    destruct (App.stampAt (c :: t)) eqn:E.
    + destruct (replaceTimestamps_stamp _ E)
        as (d1 & d2 & d3 & d4 & d5 & d6 & d7 & d8 & d9 & rest & Hs & Hr).
      rewrite Hr. clear Hr. injection Hs as -> ->.
      destruct (le_lt_dec k 11) as [Hk | Hk].
      * destruct k as [|k]; [left; reflexivity|].
        right. exists 0. split; [lia|]. split; [lia|].
        split; [exact E | reflexivity].
      * replace k with (12 + (k - 12)) in * by lia.
        generalize dependent (k - 12). intros k' H _.
        cbn [Nat.add skipn] in H. cbn [List.length] in L.
        destruct (IH rest k' ltac:(lia) H) as [G | (j & J1 & J2 & J3 & J4)].
        -- left. cbn [Nat.add nth_error]. exact G.
        -- right. exists (12 + j). split; [lia|]. split; [lia|].
           cbn [Nat.add skipn nth_error]. split; assumption.
    + rewrite (replaceTimestamps_skip _ _ E).
      destruct k as [|k]; [cbn [skipn] in H; congruence|].
      cbn [skipn] in H. cbn [List.length] in L.
      destruct (IH t k ltac:(lia) H) as [G | (j & J1 & J2 & J3 & J4)].
      * left. cbn [Nat.add nth_error]. exact G.
      * right. exists (S j). split; [lia|]. split; [lia|].
        cbn [Nat.add skipn nth_error]. split; assumption.
Qed.

(** C7: the conversion of the example of the spec is the payload the
    spec gives; and for every input the output is the header
    [WEBVTT\n\n] followed by a body as long as the input.  The body
    agrees with the input at every index, except where a comma that
    delimits a timestamp [dd:dd:dd,ddd] of the input has become a
    period; the comma of every timestamp of the input has become a
    period, unless the timestamp starts inside an earlier one whose
    comma has (the scan of a global replace resumes behind a match); so
    the body is the input exactly when the input holds no timestamp. *)
Theorem C7_srt_to_vtt :
  App.convertSrtToVtt srtExample = vttExample
  /\ forall srt : jsstring,
       exists body,
         App.convertSrtToVtt srt = js "WEBVTT" ++ [LF; LF] ++ body
         /\ List.length body = List.length srt
         /\ (forall i,
               nth_error body i = nth_error srt i
               \/ (nth_error srt i = Some App.comma
                   /\ nth_error body i = Some App.period
                   /\ delimiterAt srt i))
         /\ (forall k,
               App.stampAt (skipn k srt) = true ->
               nth_error body (k + 8) = Some App.period
               \/ exists j,
                    j < k /\ k <= j + 11
                    /\ App.stampAt (skipn j srt) = true
                    /\ nth_error body (j + 8) = Some App.period)
         /\ (body = srt <-> noStamp srt).
Proof.
  split; [vm_compute; reflexivity|].
  intros srt. exists (App.replaceTimestamps srt).
  split; [unfold App.convertSrtToVtt; rewrite <- app_assoc; reflexivity|].
  destruct (@replaceTimestamps_spec (List.length srt) srt (le_n _)) as [L U].
  split; [exact L|]. split; [exact U|]. split.
  - intros k. apply replaceTimestamps_rewrites with (n := List.length srt). lia.
  - apply replaceTimestamps_fixed with (n := List.length srt). lia.
Qed.

(** Two timestamps in one line: both commas become periods. *)
Lemma C7_srt_to_vtt_witness :
  exists body,
    App.convertSrtToVtt (js "00:00:01,000 --> 00:00:02,500")
    = js "WEBVTT" ++ [LF; LF] ++ body
    /\ nth_error body 8 = Some App.period
    /\ nth_error body 25 = Some App.period
    /\ body <> js "00:00:01,000 --> 00:00:02,500".
Proof.
  destruct C7_srt_to_vtt as (_ & G).
  destruct (G (js "00:00:01,000 --> 00:00:02,500"))
    as (body & E & _ & _ & R & F).
  exists body. split; [exact E|].
  split; [|split].
  - destruct (R 0) as [H | (j & J & _)]; [vm_compute; reflexivity | exact H | lia].
  - destruct (R 17) as [H | (j & J1 & J2 & J3 & _)];
      [vm_compute; reflexivity | exact H |].
    exfalso.
    do 17 (destruct j as [|j]; [vm_compute in J3; discriminate J3 || lia|]).
    lia.
  - intros B. apply F in B. specialize (B 0). vm_compute in B. discriminate B.
Defined.

(** * The theorems at concrete states *)

Example firstCommit_collection :
  App.annotations (app (run (firstCommit 1000) initialWorld)) = [carAnnotation].
Proof. reflexivity. Qed.

(** The scan resumes behind a match: a timestamp that starts inside the
    previous match is not seen, and its comma stays. *)
Example overlapping_stamp_kept :
  App.replaceTimestamps (js "11:22:33,444:55:66,777")
  = js "11:22:33.444:55:66,777".
Proof. vm_compute. reflexivity. Qed.

(** [handleDoneAnnotation] itself has no check of the question: the one
    in [handleDone] is what refuses a blank draft. *)
Example doneAnnotation_unchecked :
  List.length
    (App.annotations
       (App.handleDoneAnnotation 1000 VLM (js "  ") [] 6 None App.initial))
  = 1.
Proof. reflexivity. Qed.

Lemma C1_commit_appends_witness :
  ~ blank (Panel.annotationQuestion (panel draftWorld))
  /\ ids (App.annotations (app (handleDone 2000 draftWorld)))
     = [js "1000"; js "2000"]
  /\ App.isAnnotating (app (handleDone 2000 draftWorld)) = false
  /\ App.isPaused (app (handleDone 2000 draftWorld)) = false
  /\ NoDup (ids (App.annotations (app (handleDone 2000 draftWorld)))).
Proof.
  assert (~ blank (Panel.annotationQuestion (panel draftWorld))) as B
    by (unfold blank; vm_compute; discriminate).
  split; [exact B|].
  destruct (@C1_commit_appends 2000 draftWorld B)
    as (E & _ & _ & A & P & _ & N).
  split; [rewrite E; reflexivity|].
  split; [exact A|]. split; [exact P|].
  apply N.
  - vm_compute. constructor; [intros [] | constructor].
  - vm_compute. intros [H | []]. discriminate H.
Defined.

Lemma C3_blank_commit_refused_witness :
  blank (Panel.annotationQuestion (panel blankDraftWorld))
  /\ handleDone 2000 blankDraftWorld = blankDraftWorld
  /\ App.annotations (app (handleDone 2000 blankDraftWorld)) = [carAnnotation]
  /\ App.isAnnotating (app (handleDone 2000 blankDraftWorld)) = true.
Proof.
  assert (blank (Panel.annotationQuestion (panel blankDraftWorld))) as B
    by reflexivity.
  split; [exact B|].
  destruct (@C3_blank_commit_refused 2000 blankDraftWorld B)
    as (E & A & C & _).
  split; [exact E|]. split; [rewrite A; reflexivity|].
  apply C. reflexivity.
Defined.


(** [handleUpdateAnnotation] itself has no check of the question
    either: the one in [handleSaveEdit] is what refuses a blank form. *)
Example updateAnnotation_unchecked :
  map Annotation.question
    (App.annotations
       (App.handleUpdateAnnotation (js "1000")
          (editedFields carAnnotation
             {| EditForm.type := LLM; EditForm.question := [ 32%N ];
                EditForm.requirements := []; EditForm.feedbackDuration := 3 |})
          (app editingWorld)))
  = [ [ 32%N ] ].
Proof. vm_compute. reflexivity. Qed.

(** The identifier that [extractYouTubeVideoId] returns is never empty,
    so [if (youtubeId)] in [handleLoadVideo] only tests for [null]. *)
Lemma extract_truthy (url id : jsstring) :
  extractYouTubeVideoId url = Some id -> truthy id = true.
Proof.
  unfold extractYouTubeVideoId; simpl.
  destruct (urlPattern url) as [c1|] eqn:E1.
  - rewrite (urlPattern_truthy _ E1). intros [= <-].
    exact (urlPattern_truthy _ E1).
  - destruct (barePattern url) as [c2|] eqn:E2; [|discriminate].
    rewrite (barePattern_truthy _ E2). intros [= <-].
    exact (barePattern_truthy _ E2).
Qed.

Lemma C2_engine_selection_witness :
  hosted (js "https://youtu.be/abc")
  /\ App.videoType
       (App.handleLoadVideo
          (App.setInputUrl (js "https://youtu.be/abc") App.initial))
     = App.youtube.
Proof.
  assert (hosted (js "https://youtu.be/abc")) as H.
  { left. exists (js "https://"), (js "youtu.be/"), 97%N, (js "bc").
    split; [right; left; reflexivity|]. split; reflexivity. }
  split; [exact H|].
  destruct C2_engine_selection as (_ & _ & G).
  destruct (G (App.setInputUrl (js "https://youtu.be/abc") App.initial))
    as (T & I).
  apply I; [apply T|]; exact H.
Defined.

Lemma C4_update_replaces_fields_witness :
  handleSaveEdit carAnnotation wipedFormWorld = wipedFormWorld
  /\ App.annotations (app (handleSaveEdit carAnnotation editingWorld))
     = [ {| Annotation.id := js "1000";
            Annotation.timestamp := 0;
            Annotation.type := LLM;
            Annotation.question := js "What color is the truck?";
            Annotation.requirements := js "one word";
            Annotation.feedbackDuration := 3 |} ]
  /\ App.handleUpdateAnnotation (js "7") (dataOf carAnnotation)
       (app editingWorld)
     = app editingWorld.
Proof.
  destruct C4_update_replaces_fields as (U & S).
  split; [|split].
  - destruct (S carAnnotation wipedFormWorld) as (_ & _ & _ & _ & F).
    destruct (F _ eq_refl) as (B & _). apply B. reflexivity.
  - destruct (S carAnnotation editingWorld) as (_ & _ & _ & _ & F).
    destruct (F truckForm eq_refl) as (_ & N).
    destruct N as (E & _); [unfold blank; vm_compute; discriminate|].
    rewrite E. vm_compute. reflexivity.
  - destruct (U (js "7") (dataOf carAnnotation) (app editingWorld))
      as (_ & _ & _ & A).
    apply A. vm_compute. intros [H | []]. discriminate H.
Defined.

Lemma C6_export_document_witness :
  let doc := App.content (snd (App.handleGenerateJSON 5000 (app draftWorld))) in
  App.JsonData.totalAnnotations doc = 1
  /\ exists o, nth_error (App.JsonData.annotations doc) 0 = Some o
       /\ Obj.get (js "id") o = None
       /\ Obj.get (js "question") o
          = Some (Obj.Str (js "What color is the car?")).
Proof.
  destruct (C6_export_document 5000 (app draftWorld))
    as (T & _ & _ & R & _).
  split; [rewrite T; reflexivity|].
  destruct (R 0 carAnnotation eq_refl) as (o & Ho & Hid & _ & _ & _ & _ & Hq & _).
  exists o. split; [exact Ho|]. split; [exact Hid | exact Hq].
Defined.

Lemma C8_delete_idempotent_witness :
  App.annotations (App.handleDeleteAnnotation (js "1000") (app draftWorld)) = []
  /\ App.handleDeleteAnnotation (js "7") (app draftWorld) = app draftWorld
  /\ App.handleDeleteAnnotation (js "1000")
       (App.handleDeleteAnnotation (js "1000") (app draftWorld))
     = App.handleDeleteAnnotation (js "1000") (app draftWorld).
Proof.
  split; [vm_compute; reflexivity|]. split.
  - destruct (C8_delete_idempotent (js "7") (app draftWorld))
      as (_ & _ & A & _).
    apply A. vm_compute. intros [H | []]. discriminate H.
  - destruct (C8_delete_idempotent (js "1000") (app draftWorld))
      as (_ & _ & _ & I).
    exact I.
Defined.

Lemma C9_load_resets_collection_witness :
  let s := App.setInputUrl (js "https://cdn.example.com/other.mp4")
             (app draftWorld) in
  App.annotations s = [carAnnotation]
  /\ App.annotations (App.handleLoadVideo s) = []
  /\ App.isPaused (App.handleLoadVideo s) = true.
Proof.
  cbv zeta. split; [vm_compute; reflexivity|].
  destruct C9_load_resets_collection as (L & _).
  destruct (L (App.setInputUrl (js "https://cdn.example.com/other.mp4")
                 (app draftWorld))) as (A & P & _).
  - unfold blank. vm_compute. discriminate.
  - split; [exact A | exact P].
Defined.

Lemma C10_delete_removes_every_match_witness :
  let w := run (twoCommits 1000 1000) initialWorld in
  List.length (App.annotations (app w)) = 2
  /\ countId (js "1000") (App.annotations (app w)) = 2
  /\ App.annotations (app (step (Delete (js "1000")) w)) = []
  /\ countId (js "2000")
       (App.annotations
          (App.handleDeleteAnnotation (js "1000")
             (app (run (twoCommits 1000 2000) initialWorld))))
     = 1.
Proof.
  cbv zeta.
  destruct C10_delete_removes_every_match as (G & D).
  destruct (D 1000%Z) as (C & E).
  split; [vm_compute; reflexivity|].
  split; [exact C|]. split; [exact E|].
  destruct (G (js "1000") (app (run (twoCommits 1000 2000) initialWorld)))
    as (_ & _ & _ & O).
  rewrite (O (js "2000")); [vm_compute; reflexivity|].
  vm_compute. discriminate.
Defined.

(** * Further properties of the code *)

(** ** The extracted identifier *)

Lemma takeWhile_dropWhile (f : codeunit -> bool) (s : jsstring) :
  s = takeWhile f s ++ dropWhile f s.
Proof.
  induction s as [|c s IH]; simpl; [reflexivity|].
  destruct (f c); simpl; [f_equal; exact IH | reflexivity].
Qed.

Lemma takeWhile_all (f : codeunit -> bool) (s : jsstring) :
  Forall (fun c => f c = true) (takeWhile f s).
Proof.
  induction s as [|c s IH]; simpl; [constructor|].
  destruct (f c) eqn:E; [constructor; assumption | constructor].
Qed.

Lemma takeWhile_id (f : codeunit -> bool) (s : jsstring) :
  Forall (fun c => f c = true) s -> takeWhile f s = s.
Proof.
  induction 1 as [|c s Hc _ IH]; simpl; [reflexivity|].
  rewrite Hc, IH. reflexivity.
Qed.

Lemma dropWhile_endsId (s : jsstring) : endsId (dropWhile isIdChar s).
Proof.
  destruct (dropWhile isIdChar s) as [|c t] eqn:E; [left; reflexivity|].
  right. exists c, t. split; [reflexivity|]. exact (dropWhile_head _ _ E).
Qed.

Lemma captureAfter_shape (m s cap : jsstring) :
  captureAfter m s = Some cap ->
  exists post,
    s = m ++ cap ++ post /\ cap <> []
    /\ Forall (fun c => isIdChar c = true) cap /\ endsId post.
Proof.
  unfold captureAfter.
  destruct (stripPrefix m s) as [r|] eqn:E; [|discriminate].
  apply stripPrefix_Some in E.
  destruct (takeWhile isIdChar r) as [|c t] eqn:T; [discriminate|].
  intros [= <-]. exists (dropWhile isIdChar r).
  split; [rewrite E, <- T; f_equal; apply takeWhile_dropWhile|].
  split; [discriminate|].
  split; [rewrite <- T; apply takeWhile_all | apply dropWhile_endsId].
Qed.

Lemma urlPatternAt_shape (ms : list jsstring) (s cap : jsstring) :
  urlPatternAt ms s = Some cap ->
  exists m post,
    In m ms /\ s = m ++ cap ++ post /\ cap <> []
    /\ Forall (fun c => isIdChar c = true) cap /\ endsId post.
Proof.
  induction ms as [|m ms IH]; simpl; [discriminate|].
  destruct (captureAfter m s) as [c|] eqn:E.
  - intros [= <-]. destruct (captureAfter_shape _ _ E) as (post & H).
    exists m, post. split; [left; reflexivity | exact H].
  - intros H. destruct (IH H) as (m' & post & Hin & H').
    exists m', post. split; [right; exact Hin | exact H'].
Qed.

(** The search stops at the first place where a marker is followed by a
    unit of an identifier. *)
Lemma urlPattern_shape (s cap : jsstring) :
  urlPattern s = Some cap ->
  exists pre m post,
    In m markers /\ s = pre ++ m ++ cap ++ post /\ cap <> []
    /\ Forall (fun c => isIdChar c = true) cap /\ endsId post
    /\ forall pre' m' c rest,
         In m' markers -> s = pre' ++ m' ++ c :: rest -> isIdChar c = true ->
         List.length pre <= List.length pre'.
Proof.
  induction s as [|x s IH]; rewrite urlPattern_unfold.
  - destruct (urlPatternAt markers []) as [c|] eqn:E; [|discriminate].
    intros [= <-]. destruct (urlPatternAt_shape _ _ E) as (m & post & Hin & H).
    exists [], m, post. split; [exact Hin|].
    repeat (split; [apply H|]). intros; simpl; lia.
  - destruct (urlPatternAt markers (x :: s)) as [c|] eqn:E.
    + intros [= <-].
      destruct (urlPatternAt_shape _ _ E) as (m & post & Hin & H).
      exists [], m, post. split; [exact Hin|].
      repeat (split; [apply H|]). intros; simpl; lia.
    + intros H. destruct (IH H) as (pre & m & post & Hin & Hs & Hn & Hf & He & Hl).
      exists (x :: pre), m, post. split; [exact Hin|].
      split; [simpl; rewrite <- Hs; reflexivity|].
      split; [exact Hn|]. split; [exact Hf|]. split; [exact He|].
      intros pre' m' c rest Hin' Hs' Hc.
      destruct pre' as [|y pre'].
      * exfalso. simpl in Hs'.
        apply (proj2 (urlPatternAt_None markers (x :: s))); [|exact E].
        exists m', c, rest. auto.
      * simpl in Hs'. injection Hs' as _ Hs'.
        simpl. apply le_n_S. exact (Hl pre' m' c rest Hin' Hs' Hc).
Qed.

Lemma bare_isIdChar (c : codeunit) : isBareIdChar c = true -> isIdChar c = true.
Proof.
  intros H. unfold isIdChar.
  rewrite (isBareIdChar_not_space _ H).
  unfold isBareIdChar in H. unbool.
  destruct (N.eqb_spec c 38), (N.eqb_spec c 63); simpl; try reflexivity; lia.
Qed.

(** X1: the identifier that [extractYouTubeVideoId] returns is never
    empty and holds no [&], no [?] and no white space.  Either it is the
    longest run of such units behind the first marker of the source that
    has one behind it, or no marker has one behind it and the identifier
    is the whole source, eleven units of [[a-zA-Z0-9_-]]. *)
Theorem extract_shape (url id : jsstring) :
  extractYouTubeVideoId url = Some id ->
  id <> []
  /\ Forall (fun c => isIdChar c = true) id
  /\ ((exists pre m post,
         In m markers /\ url = pre ++ m ++ id ++ post /\ endsId post
         /\ forall pre' m' c rest,
              In m' markers -> url = pre' ++ m' ++ c :: rest ->
              isIdChar c = true -> List.length pre <= List.length pre')
      \/ (~ markerThenId url /\ bareId url /\ id = url)).
Proof.
  unfold extractYouTubeVideoId; simpl.
  destruct (urlPattern url) as [c1|] eqn:E1.
  - rewrite (urlPattern_truthy _ E1). intros [= <-].
    destruct (urlPattern_shape _ E1)
      as (pre & m & post & Hin & Hs & Hn & Hf & He & Hl).
    split; [exact Hn|]. split; [exact Hf|].
    left. exists pre, m, post. auto.
  - assert (~ markerThenId url) as NM.
    { intros M. apply urlPattern_None in M. congruence. }
    destruct (barePattern url) as [c2|] eqn:E2; [|discriminate].
    rewrite (barePattern_truthy _ E2). intros [= <-].
    assert (bareId url) as B by (apply barePattern_None; congruence).
    assert (c2 = url) as ->.
    { unfold barePattern in E2.
      destruct (Nat.eqb (List.length url) 11 && forallb isBareIdChar url);
        congruence. }
    split; [destruct url; [destruct B; discriminate | discriminate]|].
    split; [|right; auto].
    destruct B as [_ F]. revert F. apply Forall_impl. exact bare_isIdChar.
Qed.

Lemma extract_shape_witness :
  extractYouTubeVideoId (js "see https://youtu.be/dQw4w9WgXcQ?t=42")
  = Some (js "dQw4w9WgXcQ")
  /\ Forall (fun c => isIdChar c = true) (js "dQw4w9WgXcQ").
Proof.
  assert (extractYouTubeVideoId (js "see https://youtu.be/dQw4w9WgXcQ?t=42")
          = Some (js "dQw4w9WgXcQ")) as E by (vm_compute; reflexivity).
  split; [exact E|].
  destruct (@extract_shape _ _ E) as (_ & F & _). exact F.
Defined.

(** ** The link of [YouTubePlayer] and the extractor of [App] *)

Lemma extract_idChars (url id : jsstring) :
  extractYouTubeVideoId url = Some id ->
  id <> [] /\ Forall (fun c => isIdChar c = true) id.
Proof.
  unfold extractYouTubeVideoId; simpl.
  destruct (urlPattern url) as [c1|] eqn:E1.
  - rewrite (urlPattern_truthy _ E1). intros [= <-].
    destruct (urlPattern_shape _ E1) as (_ & _ & _ & _ & _ & Hn & Hf & _).
    split; assumption.
  - destruct (barePattern url) as [c2|] eqn:E2; [|discriminate].
    pose proof (barePattern_truthy _ E2) as T. rewrite T. intros [= <-].
    split; [destruct c2; [discriminate T | discriminate]|].
    unfold barePattern in E2.
    destruct (Nat.eqb (List.length url) 11); simpl in E2; [|discriminate].
    destruct (forallb isBareIdChar url) eqn:F; [|discriminate].
    injection E2 as <-.
    rewrite forallb_forall in F. apply Forall_forall.
    intros c Hc. apply bare_isIdChar, F, Hc.
Qed.

Lemma youtubeUrl_extracts (id : jsstring) :
  id <> [] -> Forall (fun c => isIdChar c = true) id ->
  extractYouTubeVideoId (YouTubePlayer.youtubeUrl id) = Some id.
Proof.
  intros Hn Hf.
  assert (urlPattern (YouTubePlayer.youtubeUrl id) = Some id) as U.
  { unfold YouTubePlayer.youtubeUrl.
    change (js "https://www.youtube.com/watch?v=")
      with ([104; 116; 116; 112; 115; 58; 47; 47; 119; 119; 119; 46]%N
            ++ js "youtube.com/watch?v=").
    rewrite <- app_assoc.
    do 12 (rewrite urlPattern_unfold;
           match goal with
           | |- context [urlPatternAt markers ?s] =>
               change (urlPatternAt markers s) with (@None jsstring)
           end; cbn [List.app]).
    rewrite urlPattern_unfold.
    match goal with
    | |- context [urlPatternAt markers ?s] =>
        assert (urlPatternAt markers s = Some id) as ->; [|reflexivity]
    end.
    unfold markers. cbn [urlPatternAt]. unfold captureAfter.
    match goal with
    | |- context [stripPrefix ?m ?s] =>
        assert (stripPrefix m s = Some id) as ->
          by (apply stripPrefix_Some; reflexivity)
    end.
    rewrite (takeWhile_id _ Hf).
    destruct id; [contradiction | reflexivity]. }
  unfold extractYouTubeVideoId, patterns. cbn [firstCapture]. rewrite U.
  destruct id; [contradiction | reflexivity].
Qed.

(** X2: the link that [YouTubePlayer] builds from an identifier that
    [extractYouTubeVideoId] returned is a source from which
    [extractYouTubeVideoId] returns that identifier again. *)
Theorem extract_youtubeUrl_roundtrip (url id : jsstring) :
  extractYouTubeVideoId url = Some id ->
  extractYouTubeVideoId (YouTubePlayer.youtubeUrl id) = Some id.
Proof.
  intros E. destruct (extract_idChars _ E) as (Hn & Hf).
  apply youtubeUrl_extracts; assumption.
Qed.

Lemma extract_youtubeUrl_roundtrip_witness :
  extractYouTubeVideoId (js "youtube.com/embed/abc_-9?rel=0") = Some (js "abc_-9")
  /\ extractYouTubeVideoId (js "https://www.youtube.com/watch?v=abc_-9")
     = Some (js "abc_-9").
Proof.
  assert (extractYouTubeVideoId (js "youtube.com/embed/abc_-9?rel=0")
          = Some (js "abc_-9")) as E by (vm_compute; reflexivity).
  split; [exact E|].
  exact (@extract_youtubeUrl_roundtrip _ _ E).
Defined.

(** ** The file name shown after a load *)

Lemma split_nonempty (sep : codeunit) (s : jsstring) : split sep s <> [].
Proof.
  destruct s as [|c t]; simpl; [discriminate|].
  destruct (N.eqb c sep); [discriminate|].
  destruct (split sep t); discriminate.
Qed.

Lemma pop_cons (x : jsstring) (l : list jsstring) :
  l <> [] -> pop (x :: l) = pop l.
Proof.
  intros H. unfold pop. simpl.
  destruct (rev l) as [|y r] eqn:E; [|reflexivity].
  exfalso. apply H. rewrite <- (rev_involutive l), E. reflexivity.
Qed.

Lemma orEmpty_id (s : jsstring) : orEmpty s = s.
Proof. destruct s; reflexivity. Qed.

(** The last piece of [s.split(sep)] is the part of [s] behind its last
    [sep], or all of [s] when it has none. *)
Lemma split_last (sep : codeunit) (s : jsstring) :
  exists pre seg,
    pop (split sep s) = Some seg /\ s = pre ++ seg /\ ~ In sep seg
    /\ (pre = [] \/ exists p, pre = p ++ [sep])
    /\ (pre = [] <-> List.length (split sep s) = 1).
Proof.
  induction s as [|c t IH].
  - exists [], []. simpl. repeat split; auto.
  - destruct IH as (pre & seg & Hp & Hs & Hn & Hd & Hl). simpl.
    destruct (N.eqb_spec c sep) as [->|Hc].
    + exists (sep :: pre), seg.
      rewrite (pop_cons _ (@split_nonempty sep t)).
      split; [exact Hp|]. split; [simpl; congruence|]. split; [exact Hn|].
      split.
      * right. destruct Hd as [-> | (p & ->)];
          [exists []; reflexivity | exists (sep :: p); reflexivity].
      * pose proof (@split_nonempty sep t) as NE.
        destruct (split sep t); [contradiction|].
        split; [discriminate | simpl; discriminate].
    + destruct (split sep t) as [|h r] eqn:E;
        [exfalso; exact (@split_nonempty sep t E)|].
      destruct r as [|h' r].
      * assert (pre = []) as -> by (apply Hl; reflexivity).
        injection Hp as <-. simpl in Hs. subst t.
        exists [], (c :: h).
        split; [reflexivity|]. split; [reflexivity|].
        split; [simpl; intros [H | H]; [congruence | contradiction]|].
        split; [left; reflexivity | split; reflexivity].
      * exists (c :: pre), seg.
        rewrite pop_cons by discriminate.
        rewrite pop_cons in Hp by discriminate.
        split; [exact Hp|]. split; [simpl; congruence|]. split; [exact Hn|].
        split.
        -- right. destruct Hd as [-> | (p & ->)].
           ++ exfalso. destruct Hl as [Hl _].
              specialize (Hl eq_refl). simpl in Hl. discriminate.
           ++ exists (c :: p). reflexivity.
        -- split; [discriminate | simpl; discriminate].
Qed.

(** X3: after a load of a source that is not blank, the file name shown
    is empty for a YouTube source; for any other source it is what
    stands behind the last [/] of the input (all of the input when it
    has no [/], nothing when it ends in [/]). *)
Theorem loadVideo_fileName (s : App.State) :
  ~ blank (App.inputUrl s) ->
  let name := App.videoFileName (App.handleLoadVideo s) in
  (extractYouTubeVideoId (App.inputUrl s) <> None -> name = [])
  /\ (extractYouTubeVideoId (App.inputUrl s) = None ->
      ~ In slash name
      /\ exists pre,
           App.inputUrl s = pre ++ name
           /\ (pre = [] \/ exists p, pre = p ++ [slash])).
Proof.
  intros B. apply truthy_true in B. cbv zeta.
  unfold App.handleLoadVideo. rewrite B.
  destruct (extractYouTubeVideoId (App.inputUrl s)) as [id|].
  - split; [reflexivity | discriminate].
  - split; [congruence|]. intros _. simpl. unfold App.lastSegment.
    destruct (split_last slash (App.inputUrl s))
      as (pre & seg & Hp & Hs & Hn & Hd & _).
    fold slash. rewrite Hp, orEmpty_id.
    split; [exact Hn|]. exists pre. split; assumption.
Qed.

Lemma loadVideo_fileName_witness :
  App.videoFileName
    (App.handleLoadVideo
       (App.setInputUrl (js "https://cdn.example.com/v/clip.mp4") App.initial))
  = js "clip.mp4"
  /\ ~ In slash (js "clip.mp4").
Proof.
  assert (~ blank (App.inputUrl
            (App.setInputUrl (js "https://cdn.example.com/v/clip.mp4")
               App.initial))) as B
    by (unfold blank; vm_compute; discriminate).
  assert (App.videoFileName
            (App.handleLoadVideo
               (App.setInputUrl (js "https://cdn.example.com/v/clip.mp4")
                  App.initial))
          = js "clip.mp4") as E by (vm_compute; reflexivity).
  split; [exact E|].
  destruct (@loadVideo_fileName _ B) as (_ & D).
  destruct D as (N & _); [vm_compute; reflexivity|].
  rewrite E in N. exact N.
Defined.

(** ** What every run keeps *)

(** What one event can do to the collection. *)
Lemma step_collection (e : Event) (w : World) :
  let l := App.annotations (app w) in
  let l' := App.annotations (app (step e w)) in
  (exists now,
     e = Done now /\ ~ blank (Panel.annotationQuestion (panel w))
     /\ l' = l ++ [committed now w])
  \/ l' = l
  \/ l' = []
  \/ (exists id, l' = others id l)
  \/ (exists a f,
        ~ blank (EditForm.question f)
        /\ l' = map (fun ann =>
                       if streq (Annotation.id ann) (Annotation.id a)
                       then Omit.withId (editedFields a f) (Annotation.id a)
                       else ann) l).
Proof.
  cbv zeta. destruct e; simpl; try (right; left; reflexivity).
  - unfold App.handleLoadVideo.
    destruct (truthy (trim (App.inputUrl (app w)))); [|right; left; reflexivity].
    right; right; left.
    destruct (extractYouTubeVideoId (App.inputUrl (app w))); reflexivity.
  - destruct file; [right; right; left | right; left]; reflexivity.
  - unfold handleDone.
    destruct (truthy (trim (Panel.annotationQuestion (panel w)))) eqn:T;
      [|right; left; reflexivity].
    left. exists now. split; [reflexivity|].
    split; [apply truthy_true; exact T | reflexivity].
  - destruct (Panel.editForm (panel w)); right; left; reflexivity.
  - rewrite saveEdit_annotations.
    destruct (Panel.editForm (panel w)) as [f|]; [|right; left; reflexivity].
    destruct (truthy (trim (EditForm.question f))) eqn:T;
      [|right; left; reflexivity].
    right; right; right; right. exists annotation, f.
    split; [apply truthy_true; exact T | apply update_annotations].
  - right; right; right; left. exists id. reflexivity.
Qed.

Lemma step_questionsGiven (e : Event) (w : World) :
  questionsGiven w -> questionsGiven (step e w).
Proof.
  unfold questionsGiven. intros H.
  destruct (step_collection e w)
    as [(now & _ & B & ->) | [-> | [-> | [(id & ->) | (a & f & B & ->)]]]].
  - apply Forall_app. split; [exact H|]. constructor; [exact B | constructor].
  - exact H.
  - constructor.
  - rewrite Forall_forall in *. intros x Hx.
    apply others_In in Hx. apply H, Hx.
  - rewrite Forall_forall in *. intros x Hx.
    apply in_map_iff in Hx. destruct Hx as (y & <- & Hy).
    destruct (streq (Annotation.id y) (Annotation.id a)); [exact B | auto].
Qed.

Lemma run_questionsGiven (es : list Event) :
  forall w, questionsGiven w -> questionsGiven (run es w).
Proof.
  induction es as [|e es IH]; intros w H; [exact H|].
  simpl. apply IH, step_questionsGiven, H.
Qed.

(** X4: in every state that a run of events reaches from the opened
    page, every record of the collection has a question that is not
    blank: the checks of [handleDone] and [handleSaveEdit] are the only
    ways into the collection. *)
Theorem reachable_questionsGiven (es : list Event) :
  Forall (fun a => trim (Annotation.question a) <> [])
         (App.annotations (app (run es initialWorld))).
Proof.
  apply (@run_questionsGiven es initialWorld). constructor.
Qed.

Lemma ids_others_NoDup (id : jsstring) (l : list Annotation.t) :
  NoDup (ids l) -> NoDup (ids (others id l)).
Proof.
  unfold ids, others. induction l as [|a l IH]; simpl; [trivial|].
  intros N. inversion N as [|? ? Hx N']; subst.
  destruct (streq (Annotation.id a) id); simpl; [auto|].
  constructor; [|auto].
  intros Hin. apply Hx. apply in_map_iff in Hin.
  destruct Hin as (y & E & Hy). apply filter_In in Hy.
  apply in_map_iff. exists y. tauto.
Qed.

(** What one event can do to the ids of the collection. *)
Lemma step_ids (e : Event) (w : World) :
  let i := ids (App.annotations (app w)) in
  let i' := ids (App.annotations (app (step e w))) in
  (exists now, e = Done now /\ i' = i ++ [toString now])
  \/ ((NoDup i -> NoDup i') /\ (forall x, In x i' -> In x i)).
Proof.
  cbv zeta.
  destruct (step_collection e w)
    as [(now & -> & _ & E) | [E | [E | [(id & E) | (a & f & _ & E)]]]];
    rewrite E.
  - left. exists now. split; [reflexivity|].
    unfold ids. rewrite map_app. reflexivity.
  - right. auto.
  - right. split; [intros _; constructor | intros x []].
  - right. split; [apply ids_others_NoDup|].
    intros x Hx. apply in_ids in Hx. destruct Hx as (y & Hy & <-).
    apply others_In in Hy. apply in_ids. exists y. tauto.
  - right.
    assert (ids (map (fun ann =>
                        if streq (Annotation.id ann) (Annotation.id a)
                        then Omit.withId (editedFields a f) (Annotation.id a)
                        else ann) (App.annotations (app w)))
            = ids (App.annotations (app w))) as ->; [|auto].
    exact (update_ids (Annotation.id a) (editedFields a f) (app w)).
Qed.

Lemma clocks_cons (e : Event) (es : list Event) :
  (exists now, e = Done now /\ clocks (e :: es) = now :: clocks es)
  \/ ((forall now, e <> Done now) /\ clocks (e :: es) = clocks es).
Proof.
  destruct e; try (right; split; [discriminate | reflexivity]).
  left. exists now. auto.
Qed.

Lemma run_ids_from (es : list Event) :
  forall w id,
    In id (ids (App.annotations (app (run es w)))) ->
    In id (ids (App.annotations (app w)))
    \/ exists now, In now (clocks es) /\ id = toString now.
Proof.
  induction es as [|e es IH]; intros w id H; [left; exact H|].
  simpl in H. destruct (IH _ _ H) as [H1 | (now & Hn & ->)].
  - destruct (step_ids e w) as [(now & -> & E) | (_ & S)].
    + rewrite E in H1. apply in_app_iff in H1.
      destruct H1 as [H1 | [<- | []]]; [left; exact H1|].
      right. exists now. split; [left; reflexivity | reflexivity].
    + left. apply S, H1.
  - right. exists now. split; [|reflexivity].
    destruct (clocks_cons e es) as [(t & _ & ->) | (_ & ->)];
      [right; exact Hn | exact Hn].
Qed.

(** X5: every id found in the collection after a run from the opened
    page is the decimal rendering of the clock reading at one of the
    clicks on DONE of that run. *)
Theorem reachable_ids_from_clock (es : list Event) (id : jsstring) :
  In id (ids (App.annotations (app (run es initialWorld)))) ->
  exists now, In now (clocks es) /\ id = toString now.
Proof.
  intros H. destruct (run_ids_from es initialWorld id H) as [[] | G].
  exact G.
Qed.

Lemma run_ids_NoDup (es : list Event) :
  forall w,
    NoDup (ids (App.annotations (app w))) ->
    NoDup (clocks es) ->
    (forall t, In t (clocks es) ->
       ~ In (toString t) (ids (App.annotations (app w)))) ->
    NoDup (ids (App.annotations (app (run es w)))).
Proof.
  induction es as [|e es IH]; intros w N C F; [exact N|].
  simpl. destruct (step_ids e w) as [(now & -> & E) | (P & S)].
  - simpl in C, F. inversion C as [|? ? Hnow C']; subst.
    apply IH; [| exact C' |].
    + rewrite E. apply NoDup_snoc. split; [exact N|].
      apply F. left; reflexivity.
    + intros t Ht. rewrite E, in_app_iff. intros [H | [H | []]].
      * exact (F t (or_intror Ht) H).
      * apply toString_inj in H. subst. exact (Hnow Ht).
  - destruct (clocks_cons e es) as [(t & _ & Ec) | (_ & Ec)];
      rewrite Ec in C, F.
    + inversion C; subst.
      apply IH; [auto | assumption |].
      intros t' Ht' H. exact (F t' (or_intror Ht') (S _ H)).
    + apply IH; [auto | assumption |].
      intros t' Ht' H. exact (F t' Ht' (S _ H)).
Qed.

(** X6: when the clock readings at the clicks on DONE of a run are
    pairwise distinct, the ids of the collection are pairwise distinct
    in the state the run reaches from the opened page. *)
Theorem reachable_ids_distinct (es : list Event) :
  NoDup (clocks es) ->
  NoDup (ids (App.annotations (app (run es initialWorld)))).
Proof.
  intros C. apply run_ids_NoDup; [constructor | exact C | intros t _ []].
Qed.

Lemma reachable_ids_from_clock_witness :
  In (js "2000")
     (ids (App.annotations (app (run (twoCommits 1000 2000) initialWorld))))
  /\ exists now,
       In now (clocks (twoCommits 1000 2000)) /\ js "2000" = toString now.
Proof.
  assert (In (js "2000")
            (ids (App.annotations
                    (app (run (twoCommits 1000 2000) initialWorld))))) as H
    by (vm_compute; right; left; reflexivity).
  split; [exact H|].
  exact (@reachable_ids_from_clock (twoCommits 1000 2000) (js "2000") H).
Defined.

Lemma reachable_ids_distinct_witness :
  NoDup (clocks (twoCommits 1000 2000 ++ [Delete (js "1000"); Done 3000]))
  /\ NoDup (ids (App.annotations
                   (app (run (twoCommits 1000 2000
                              ++ [Delete (js "1000"); Done 3000])
                             initialWorld)))).
Proof.
  assert (NoDup (clocks (twoCommits 1000 2000
                         ++ [Delete (js "1000"); Done 3000]))) as C.
  { vm_compute. repeat constructor; simpl; intuition discriminate. }
  split; [exact C|].
  exact (@reachable_ids_distinct _ C).
Defined.

(** ** How the handlers compose *)

(** X7: a second DONE right after a DONE changes nothing, whatever the
    draft was: a commit empties the question of the draft, and the check
    of [handleDone] then refuses the empty question. *)
Theorem handleDone_twice (now now' : Z) (w : World) :
  handleDone now' (handleDone now w) = handleDone now w.
Proof.
  unfold handleDone at 2 3.
  destruct (truthy (trim (Panel.annotationQuestion (panel w)))) eqn:T.
  - reflexivity.
  - unfold handleDone. rewrite T. reflexivity.
Qed.

Lemma withId_editedFields_self (a : Annotation.t) :
  Omit.withId
    (editedFields a
       {| EditForm.type := Annotation.type a;
          EditForm.question := Annotation.question a;
          EditForm.requirements := Annotation.requirements a;
          EditForm.feedbackDuration := Annotation.feedbackDuration a |})
    (Annotation.id a)
  = a.
Proof. destruct a; reflexivity. Qed.

(** X8: opening the edit form of a record of the collection and saving
    it at once leaves the collection as it was, when the ids of the
    collection are pairwise distinct. *)
Theorem edit_then_save_unchanged (a : Annotation.t) (w : World) :
  NoDup (ids (App.annotations (app w))) ->
  In a (App.annotations (app w)) ->
  App.annotations (app (handleSaveEdit a (handleEdit a w)))
  = App.annotations (app w).
Proof.
  intros N Hin. rewrite saveEdit_annotations.
  unfold handleEdit.
  cbn [panel app Panel.editForm Panel.setEditForm EditForm.question].
  destruct (truthy (trim (Annotation.question a))); [|reflexivity].
  rewrite update_annotations.
  rewrite <- (map_id (App.annotations (app w))) at 2.
  apply map_ext_in. intros x Hx.
  destruct (streq (Annotation.id x) (Annotation.id a)) eqn:E; [|reflexivity].
  apply streq_eq in E.
  rewrite (ids_injective _ _ _ N Hx Hin E).
  apply withId_editedFields_self.
Qed.

Lemma edit_then_save_unchanged_witness :
  NoDup (ids (App.annotations (app draftWorld)))
  /\ In carAnnotation (App.annotations (app draftWorld))
  /\ App.annotations
       (app (handleSaveEdit carAnnotation (handleEdit carAnnotation draftWorld)))
     = [carAnnotation].
Proof.
  assert (NoDup (ids (App.annotations (app draftWorld)))) as N
    by (vm_compute; constructor; [intros [] | constructor]).
  assert (In carAnnotation (App.annotations (app draftWorld))) as I
    by (vm_compute; left; reflexivity).
  split; [exact N|]. split; [exact I|].
  rewrite (@edit_then_save_unchanged carAnnotation draftWorld N I).
  vm_compute. reflexivity.
Defined.

Lemma filter_map_comm {A : Type} (p : A -> bool) (g : A -> A) (l : list A) :
  (forall x, p (g x) = p x) -> filter p (map g l) = map g (filter p l).
Proof.
  intros H. induction l as [|x l IH]; simpl; [reflexivity|].
  rewrite H. destruct (p x); simpl; rewrite IH; reflexivity.
Qed.

Lemma filter_comm {A : Type} (p q : A -> bool) (l : list A) :
  filter p (filter q l) = filter q (filter p l).
Proof.
  induction l as [|x l IH]; simpl; [reflexivity|].
  destruct (p x) eqn:P, (q x) eqn:Q; simpl; rewrite ?P, ?Q, IH; reflexivity.
Qed.

(** X9: deleting one id and updating the records of another (or the
    same) id give the same state in either order, and so do two
    deletions. *)
Theorem delete_commutes (id id' : jsstring) (r : Omit.t) (s : App.State) :
  App.handleDeleteAnnotation id (App.handleUpdateAnnotation id' r s)
  = App.handleUpdateAnnotation id' r (App.handleDeleteAnnotation id s)
  /\ App.handleDeleteAnnotation id (App.handleDeleteAnnotation id' s)
     = App.handleDeleteAnnotation id' (App.handleDeleteAnnotation id s).
Proof.
  unfold App.handleDeleteAnnotation, App.handleUpdateAnnotation,
    App.setAnnotations.
  destruct s; cbn. split; f_equal.
  - apply filter_map_comm. intros x.
    destruct (streq (Annotation.id x) id') eqn:E; [|reflexivity].
    apply streq_eq in E. simpl. rewrite E. reflexivity.
  - apply filter_comm.
Qed.

(** ** The export *)

(** X10: the name of the exported file determines the clock reading it
    was made at: two exports at different readings get different
    names. *)
Theorem download_name_injective (now now' : Z) (s s' : App.State) :
  App.download (snd (App.handleGenerateJSON now s))
  = App.download (snd (App.handleGenerateJSON now' s')) ->
  now = now'.
Proof.
  unfold App.handleGenerateJSON. cbn [snd App.download]. intros H.
  apply app_inv_head, app_inv_tail in H.
  apply toString_inj, H.
Qed.

Lemma download_name_injective_witness :
  App.download (snd (App.handleGenerateJSON 1700000000000 App.initial))
  = js "video-annotations-1700000000000.json"
  /\ 1700000000000%Z = 1700000000000%Z.
Proof.
  split; [vm_compute; reflexivity|].
  apply (@download_name_injective _ _ App.initial (app draftWorld)).
  vm_compute. reflexivity.
Defined.

Lemma ofType_inj (t t' : AnnotationType) : Obj.ofType t = Obj.ofType t' -> t = t'.
Proof.
  destruct t, t'; try reflexivity; intros H; vm_compute in H; discriminate H.
Qed.

Lemma rest_determines_data (a b : Annotation.t) :
  Obj.rest (js "id") (Obj.ofAnnotation a)
  = Obj.rest (js "id") (Obj.ofAnnotation b)
  <-> dataOf a = dataOf b.
Proof.
  rewrite !rest_ofAnnotation. split.
  - intros H. injection H as H1 H2 H3 H4 H5.
    apply ofType_inj in H2. unfold dataOf. congruence.
  - unfold dataOf. intros [= -> -> -> -> ->]. reflexivity.
Qed.

Lemma map_rest_determines_data (l l' : list Annotation.t) :
  map (fun a => Obj.rest (js "id") (Obj.ofAnnotation a)) l
  = map (fun a => Obj.rest (js "id") (Obj.ofAnnotation a)) l'
  <-> map dataOf l = map dataOf l'.
Proof.
  revert l'. induction l as [|a l IH]; intros [|b l']; cbn [map];
    try (split; [discriminate | discriminate]); [tauto|].
  split; intros H; apply cons_inv in H; destruct H as [H1 H2]; f_equal.
  - apply (rest_determines_data a b). exact H1.
  - apply IH. exact H2.
  - apply (rest_determines_data a b). exact H1.
  - apply IH. exact H2.
Qed.

(** X11: the exported document loses nothing but the ids: two states
    export the same document exactly when they have the same video URL
    and their collections agree, record by record, on every field other
    than the id. *)
Theorem export_determines_data (s s' : App.State) :
  App.jsonData s = App.jsonData s'
  <-> App.videoUrl s = App.videoUrl s'
      /\ map dataOf (App.annotations s) = map dataOf (App.annotations s').
Proof.
  unfold App.jsonData. split.
  - intros [= H1 H2 H3]. split; [exact H1|].
    apply map_rest_determines_data. exact H3.
  - intros [H1 H2]. f_equal; [exact H1 | | apply map_rest_determines_data, H2].
    rewrite <- (length_map dataOf (App.annotations s)), H2.
    apply length_map.
Qed.

(** ** The subtitle conversion on inputs without timestamps *)

(** X12: [convertSrtToVtt] returns its input behind the header, with
    nothing rewritten, exactly when no timestamp [dd:dd:dd,ddd] starts
    anywhere in the input. *)
Theorem convertSrtToVtt_unchanged (srt : jsstring) :
  App.convertSrtToVtt srt = (js "WEBVTT" ++ [LF; LF]) ++ srt <-> noStamp srt.
Proof.
  unfold App.convertSrtToVtt. cbv zeta.
  rewrite <- (@replaceTimestamps_fixed (List.length srt) srt) by lia.
  split; [apply app_inv_head | intros ->; reflexivity].
Qed.

(** ** Loading a source in the middle of a draft *)

Lemma loadVideo_frame (s : App.State) :
  let s1 := App.handleLoadVideo s in
  App.isAnnotating s1 = App.isAnnotating s
  /\ App.currentTime s1 = App.currentTime s
  /\ App.subtitleUrl s1 = App.subtitleUrl s
  /\ App.subtitleFileName s1 = App.subtitleFileName s
  /\ App.inputUrl s1 = App.inputUrl s.
Proof.
  cbv zeta. unfold App.handleLoadVideo.
  destruct (truthy (trim (App.inputUrl s))); [|auto 6].
  destruct (extractYouTubeVideoId (App.inputUrl s)); simpl; auto 6.
Qed.

(** X13: a load that goes through while a draft is open, from the URL
    field or from a file, empties the collection but ends neither the
    session nor the draft, and keeps the playback time and the subtitle
    track of the source before; a DONE right after commits the draft as
    the only record, with the playback time of the source before as its
    timestamp. *)
Theorem load_keeps_draft (e : Event) (now : Z) (w : World) :
  (e = LoadVideo /\ ~ blank (App.inputUrl (app w))
   \/ exists f, e = FileUpload (Some f)) ->
  ~ blank (Panel.annotationQuestion (panel w)) ->
  let w1 := step e w in
  panel w1 = panel w
  /\ App.isAnnotating (app w1) = App.isAnnotating (app w)
  /\ App.currentTime (app w1) = App.currentTime (app w)
  /\ App.subtitleUrl (app w1) = App.subtitleUrl (app w)
  /\ App.subtitleFileName (app w1) = App.subtitleFileName (app w)
  /\ App.annotations (app w1) = []
  /\ App.annotations (app (handleDone now w1)) = [committed now w].
Proof.
  intros He B. cbv zeta.
  assert (panel (step e w) = panel w
          /\ App.isAnnotating (app (step e w)) = App.isAnnotating (app w)
          /\ App.currentTime (app (step e w)) = App.currentTime (app w)
          /\ App.subtitleUrl (app (step e w)) = App.subtitleUrl (app w)
          /\ App.subtitleFileName (app (step e w))
             = App.subtitleFileName (app w)
          /\ App.annotations (app (step e w)) = []) as F.
  { destruct He as [[-> U] | (f & ->)]; simpl.
    - destruct (loadVideo_frame (app w)) as (A & T & S1 & S2 & _).
      repeat (split; [assumption || reflexivity|]).
      apply truthy_true in U. unfold App.handleLoadVideo. rewrite U.
      destruct (extractYouTubeVideoId (App.inputUrl (app w))); reflexivity.
    - repeat split. }
  destruct F as (P & A & T & S1 & S2 & L).
  repeat (split; [assumption|]).
  rewrite handleDone_commits by (rewrite P; exact B).
  simpl. rewrite L. unfold committed. rewrite P, T. reflexivity.
Qed.

Lemma load_keeps_draft_witness :
  let w := step (TypeUrl (js "https://youtu.be/abc")) draftWorld in
  App.annotations (app w) = [carAnnotation]
  /\ App.isAnnotating (app (step LoadVideo w)) = true
  /\ map Annotation.question
       (App.annotations (app (handleDone 2000 (step LoadVideo w))))
     = [js "Who is driving?"].
Proof.
  cbv zeta.
  split; [vm_compute; reflexivity|].
  destruct (@load_keeps_draft LoadVideo 2000
              (step (TypeUrl (js "https://youtu.be/abc")) draftWorld))
    as (_ & A & _ & _ & _ & _ & D).
  - left. split; [reflexivity|]. unfold blank. vm_compute. discriminate.
  - unfold blank. vm_compute. discriminate.
  - split; [rewrite A; vm_compute; reflexivity|].
    rewrite D. vm_compute. reflexivity.
Defined.

(** ** Records that share an id *)

(** X14: after [handleUpdateAnnotation id r] all records with the id
    [id] are one and the same record, [r] with that id: records that
    shared the id before become copies of each other. *)
Theorem update_unifies (id : jsstring) (r : Omit.t) (s : App.State)
    (x : Annotation.t) :
  In x (App.annotations (App.handleUpdateAnnotation id r s)) ->
  Annotation.id x = id ->
  x = Omit.withId r id.
Proof.
  rewrite update_annotations, in_map_iff.
  intros (y & E & _) Hx.
  destruct (streq (Annotation.id y) id) eqn:T; [congruence|].
  apply streq_neq in T. congruence.
Qed.

Lemma update_unifies_witness :
  let s := app (run (twoCommits 1000 1000) initialWorld) in
  map Annotation.question (App.annotations s)
  = [js "What color is the car?"; js "Who is driving?"]
  /\ map Annotation.question
       (App.annotations
          (App.handleUpdateAnnotation (js "1000") (dataOf carAnnotation) s))
     = [js "What color is the car?"; js "What color is the car?"]
  /\ carAnnotation = Omit.withId (dataOf carAnnotation) (js "1000").
Proof.
  cbv zeta. split; [vm_compute; reflexivity|].
  split; [vm_compute; reflexivity|].
  apply (@update_unifies (js "1000") (dataOf carAnnotation)
           (app (run (twoCommits 1000 1000) initialWorld)) carAnnotation).
  - vm_compute. left. reflexivity.
  - vm_compute. reflexivity.
Defined.
